(** * BusinessInsight API: a shallow embedding of [main.py]

    The backend aggregates three upstream sources (an encyclopedia summary,
    a news feed, a price CSV) into one Insight record and stores a snapshot
    of it on a best-effort basis.  This development embeds the fetch helpers
    and the routes of [main.py] as functions over an explicit world (HTTP
    oracle, clock, document store) with Python's exceptions as a result type,
    and proves the properties of the specification about them.

    Conventions.  A Python [str] is a [string] whose characters are read as
    the code points 0..255.  A Python [int] is a [Z].  A Python [float] is a
    [spec_float].  Dynamically typed values (JSON payloads, stored documents,
    response fields) are values of [PyVal].  The response model validates
    what its constructor is given, and raises when a value does not fit its
    field. *)

From Stdlib Require Import ZArith List String Ascii Bool Lia.
From Stdlib Require Import DecimalString SpecFloat.
Import ListNotations.

Set Warnings "-register-all".

Local Open Scope string_scope.
Local Open Scope list_scope.

(** ** Python strings *)

Module PyStr.

Definition code (c : ascii) : N := N_of_ascii c.

(** [str.isspace] on the code points below 256. *)
Definition isspace (c : ascii) : bool :=
  let n := code c in
  ((9 <=? n) && (n <=? 13) || (28 <=? n) && (n <=? 32)
   || (n =? 133) || (n =? 160))%N.

Fixpoint lstrip (s : string) : string :=
  match s with
  | EmptyString => EmptyString
  | String c r => if isspace c then lstrip r else s
  end.

(** Drops the trailing whitespace: a character is kept when something
    non-blank follows it or it is itself non-blank. *)
Fixpoint rstrip (s : string) : string :=
  match s with
  | EmptyString => EmptyString
  | String c r =>
      match rstrip r with
      | EmptyString => if isspace c then EmptyString else String c EmptyString
      | r' => String c r'
      end
  end.

(** [s.strip()] *)
Definition strip (s : string) : string := rstrip (lstrip s).

(** The string is empty or holds whitespace only. *)
Fixpoint all_space (s : string) : bool :=
  match s with
  | EmptyString => true
  | String c r => isspace c && all_space r
  end.

(** [bool(s)]: a string is truthy when it is not empty. *)
Definition nonempty (s : string) : bool :=
  match s with EmptyString => false | String _ _ => true end.

(** [s.startswith(p)] *)
Definition startswith (p s : string) : bool := String.prefix p s.

(** [str.lower] on the code points below 256: A-Z and the Latin-1 capitals
    (0xC0-0xDE but the multiplication sign 0xD7) move up by 32. *)
Definition lower_char (c : ascii) : ascii :=
  let n := code c in
  if ((65 <=? n) && (n <=? 90)
      || (192 <=? n) && (n <=? 222) && negb (n =? 215))%N
  then ascii_of_N (n + 32) else c.

Fixpoint lower (s : string) : string :=
  match s with
  | EmptyString => EmptyString
  | String c r => String (lower_char c) (lower r)
  end.

(** [s.split(sep)] for a one-character separator: never an empty list. *)
Fixpoint split_aux (sep : ascii) (cur : string) (s : string) : list string :=
  match s with
  | EmptyString => [cur]
  | String c r =>
      if Ascii.eqb c sep then cur :: split_aux sep EmptyString r
      else split_aux sep (cur ++ String c EmptyString) r
  end.

Definition split (sep : ascii) (s : string) : list string :=
  split_aux sep EmptyString s.

(** The line boundaries of [str.splitlines] below 256, besides "\r\n":
    \n \v \f \r, the separators 0x1C-0x1E and NEL 0x85. *)
Definition is_linebreak (c : ascii) : bool :=
  let n := code c in
  ((10 <=? n) && (n <=? 13) || (28 <=? n) && (n <=? 30) || (n =? 133))%N.

Definition is_cr (c : ascii) : bool := (code c =? 13)%N.
Definition is_lf (c : ascii) : bool := (code c =? 10)%N.

(** [s.splitlines()]: the line ends are dropped, "\r\n" is one boundary,
    and a final boundary opens no empty last line. *)
Fixpoint splitlines_aux (cur : string) (s : string) : list string :=
  match s with
  | EmptyString => if nonempty cur then [cur] else []
  | String c r =>
      if is_linebreak c then
        match r with
        | String c' r' =>
            if is_cr c && is_lf c' then cur :: splitlines_aux EmptyString r'
            else cur :: splitlines_aux EmptyString r
        | EmptyString => [cur]
        end
      else splitlines_aux (cur ++ String c EmptyString) r
  end.

Definition splitlines (s : string) : list string :=
  splitlines_aux EmptyString s.

(** [str(n)] for a non-negative integer. *)
Definition of_nat (n : nat) : string :=
  NilEmpty.string_of_uint (Nat.to_uint n).

(** *** [requests.utils.quote] (urllib's [quote] with [safe="/"]) *)

Definition hex_digit (n : N) : ascii :=
  if (n <? 10)%N then ascii_of_N (48 + n) else ascii_of_N (55 + n).

Definition percent (byte : N) : string :=
  String "%" (String (hex_digit (byte / 16)) (String (hex_digit (byte mod 16)) EmptyString)).

Definition unreserved (c : ascii) : bool :=
  let n := code c in
  ((65 <=? n) && (n <=? 90) || (97 <=? n) && (n <=? 122)
   || (48 <=? n) && (n <=? 57)
   || (n =? 95) || (n =? 46) || (n =? 45) || (n =? 126) || (n =? 47))%N.

(** The UTF-8 bytes of a code point below 256, percent-encoded. *)
Definition quote_char (c : ascii) : string :=
  let n := code c in
  if unreserved c then String c EmptyString
  else if (n <? 128)%N then percent n
  else percent (192 + n / 64) ++ percent (128 + n mod 64).

Fixpoint quote (s : string) : string :=
  match s with
  | EmptyString => EmptyString
  | String c r => quote_char c ++ quote r
  end.

End PyStr.

(** ** Python list slices *)

Module PySlice.

(** [l[:stop]] *)
Definition upto {A} (stop : Z) (l : list A) : list A :=
  let len := Z.of_nat (List.length l) in
  let k := if (stop <? 0)%Z then Z.max (len + stop) 0 else Z.min stop len in
  firstn (Z.to_nat k) l.

(** [l[start:]] *)
Definition from {A} (start : Z) (l : list A) : list A :=
  let len := Z.of_nat (List.length l) in
  let k := if (start <? 0)%Z then Z.max (len + start) 0 else Z.min start len in
  skipn (Z.to_nat k) l.

End PySlice.

(** ** Python values *)

Inductive PyVal : Type :=
| PNone
| PBool (b : bool)
| PInt (n : Z)
| PFloat (x : spec_float)
| PStr (s : string)
| PDatetime (t : Z)
| PList (items : list PyVal)
| PDict (entries : list (string * PyVal)).

(** The exceptions the program meets; each is a subclass of [Exception]. *)
Inductive Exn : Type :=
| HTTPException (status_code : Z) (detail : string)
| RequestException
| HTTPError (status_code : Z)
| JSONDecodeError
| ParseError
| ValueError
| OverflowError
| AttributeError
| StoreError
| ValidationError.

Inductive Result (A : Type) : Type :=
| Ok (a : A)
| Raise (e : Exn).

Arguments Ok {A} a.
Arguments Raise {A} e.

Module Py.

(** [bool(v)] *)
Definition truthy (v : PyVal) : bool :=
  match v with
  | PNone => false
  | PBool b => b
  | PInt n => negb (n =? 0)%Z
  | PFloat x => match x with S754_zero _ => false | _ => true end
  | PStr s => PyStr.nonempty s
  | PDatetime _ => true
  | PList l => match l with [] => false | _ => true end
  | PDict d => match d with [] => false | _ => true end
  end.

(** [a or b] *)
Definition or_else (a b : PyVal) : PyVal := if truthy a then a else b.

Fixpoint lookup (k : string) (d : list (string * PyVal)) : option PyVal :=
  match d with
  | [] => None
  | (k', v) :: r => if String.eqb k k' then Some v else lookup k r
  end.

(** [d.get(k, default)] on a dict *)
Definition get (k : string) (default : PyVal) (d : list (string * PyVal)) : PyVal :=
  match lookup k d with Some v => v | None => default end.

(** [v.get(k, default)] on any value: only a dict has the method. *)
Definition get_attr (k : string) (default : PyVal) (v : PyVal) : Result PyVal :=
  match v with
  | PDict d => Ok (get k default d)
  | _ => Raise AttributeError
  end.

(** [x if x is not None else d] for an optional string. *)
Definition of_opt_str (o : option string) : PyVal :=
  match o with Some s => PStr s | None => PNone end.

(** Structural equality of values, as the store's exact match uses it. *)
Fixpoint eqb (a b : PyVal) : bool :=
  match a, b with
  | PNone, PNone => true
  | PBool x, PBool y => Bool.eqb x y
  | PInt x, PInt y => (x =? y)%Z
  | PFloat x, PFloat y => SFeqb x y
  | PStr x, PStr y => String.eqb x y
  | PDatetime x, PDatetime y => (x =? y)%Z
  | PList l1, PList l2 =>
      (fix go (l1 l2 : list PyVal) : bool :=
         match l1, l2 with
         | [], [] => true
         | x :: r1, y :: r2 => eqb x y && go r1 r2
         | _, _ => false
         end) l1 l2
  | PDict d1, PDict d2 =>
      (fix go (d1 d2 : list (string * PyVal)) : bool :=
         match d1, d2 with
         | [], [] => true
         | (k1, x) :: r1, (k2, y) :: r2 => String.eqb k1 k2 && eqb x y && go r1 r2
         | _, _ => false
         end) d1 d2
  | _, _ => false
  end.

(** [int(x)] for a float: truncation toward zero; infinities and NaN raise. *)
Definition int_of_float (x : spec_float) : Result Z :=
  match x with
  | S754_zero _ => Ok 0%Z
  | S754_infinity _ => Raise OverflowError
  | S754_nan => Raise ValueError
  | S754_finite s m e =>
      let mag := match e with
                 | Z0 => Z.pos m
                 | Zpos p => (Z.pos m * 2 ^ Z.pos p)%Z
                 | Zneg p => (Z.pos m / 2 ^ Z.pos p)%Z
                 end in
      Ok (if s then (- mag)%Z else mag)
  end.

End Py.

(** ** XML elements ([xml.etree.ElementTree]) *)

Inductive Element : Type :=
| Elem (tag : string) (text : option string) (children : list Element).

Module ET.

Definition tag (e : Element) : string := let 'Elem t _ _ := e in t.
Definition text (e : Element) : option string := let 'Elem _ x _ := e in x.
Definition children (e : Element) : list Element := let 'Elem _ _ c := e in c.

(** The proper descendants of an element in document order. *)
Fixpoint descendants (e : Element) : list Element :=
  match e with
  | Elem _ _ cs => flat_map (fun c => c :: descendants c) cs
  end.

(** [e.findall(".//" + name)] *)
Definition findall_descendants (name : string) (e : Element) : list Element :=
  filter (fun d => String.eqb (tag d) name) (descendants e).

(** [e.find(name)]: the first child with that tag. *)
Definition find (name : string) (e : Element) : option Element :=
  List.find (fun c => String.eqb (tag c) name) (children e).

End ET.

(** ** The libraries whose results the program only consumes

    [fromstring] is [ET.fromstring] ([None]: the document does not parse),
    [float_of_string] is the builtin [float] on a string ([None]: it raises
    [ValueError]). *)

Class Libs : Type := {
  fromstring : string -> option Element;
  float_of_string : string -> option spec_float
}.

(** ** The world: upstream services, clock and document store *)

(** A [requests.Response]: [json] is what [r.json()] yields, [None] when it
    raises. *)
Record Response : Type := mkResponse {
  status_code : Z;
  text : string;
  json : option PyVal
}.

Inductive DbCall : Type :=
| DbWrite (collection : string) (document : PyVal)
| DbRead (collection : string) (filter : PyVal) (limit : Z).

(** The first three fields are the environment and never change: the reply
    to the n-th GET ([None]: the request raises), the n-th reading of the
    clock, and whether the n-th call of the store fails.  The others are the
    state: the URLs fetched and the store calls made (oldest first), the
    number of clock readings, and the stored documents (newest first). *)
Record World : Type := mkWorld {
  http_reply : nat -> string -> option Response;
  clock : nat -> Z;
  store_fault : nat -> DbCall -> bool;
  http_log : list string;
  clock_reads : nat;
  db_calls : list DbCall;
  db_docs : list (string * PyVal)
}.

Definition log_http (url : string) (w : World) : World :=
  mkWorld (http_reply w) (clock w) (store_fault w)
          (http_log w ++ [url]) (clock_reads w) (db_calls w) (db_docs w).

Definition tick (w : World) : World :=
  mkWorld (http_reply w) (clock w) (store_fault w)
          (http_log w) (S (clock_reads w)) (db_calls w) (db_docs w).

Definition log_db (c : DbCall) (w : World) : World :=
  mkWorld (http_reply w) (clock w) (store_fault w)
          (http_log w) (clock_reads w) (db_calls w ++ [c]) (db_docs w).

Definition store_doc (collection : string) (doc : PyVal) (w : World) : World :=
  mkWorld (http_reply w) (clock w) (store_fault w)
          (http_log w) (clock_reads w) (db_calls w) ((collection, doc) :: db_docs w).

(** ** Computations: state passing with exceptions *)

Definition M (A : Type) : Type := World -> Result A * World.

Definition ret {A} (a : A) : M A := fun w => (Ok a, w).

Definition raise {A} (e : Exn) : M A := fun w => (Raise e, w).

Definition bind {A B} (m : M A) (k : A -> M B) : M B :=
  fun w => match m w with
           | (Ok a, w') => k a w'
           | (Raise e, w') => (Raise e, w')
           end.

(** [try: m  except Exception: h] *)
Definition try_except {A} (m : M A) (h : M A) : M A :=
  fun w => match m w with
           | (Ok a, w') => (Ok a, w')
           | (Raise _, w') => h w'
           end.

Definition lift {A} (r : Result A) : M A := fun w => (r, w).

Definition lift_opt {A} (e : Exn) (o : option A) : M A :=
  fun w => match o with Some a => (Ok a, w) | None => (Raise e, w) end.

Declare Scope py_scope.
Delimit Scope py_scope with py.
Notation "x <- m ;; k" := (bind m (fun x => k))
  (at level 61, m at next level, right associativity) : py_scope.
Notation "m ;; k" := (bind m (fun _ => k))
  (at level 61, right associativity) : py_scope.
Notation "'let?' x := r 'in' k" :=
  (match r with Ok x => k | Raise e => Raise e end)
  (at level 10, x name, r at level 100, k at level 200).

Local Open Scope py_scope.

(** [for x in l: body] *)
Fixpoint for_each {A} (l : list A) (body : A -> M unit) : M unit :=
  match l with
  | [] => ret tt
  | x :: r => body x ;; for_each r body
  end.

(** [requests.get(url, timeout=10)] *)
Definition requests_get (url : string) : M Response :=
  fun w => match http_reply w (List.length (http_log w)) url with
           | Some r => (Ok r, log_http url w)
           | None => (Raise RequestException, log_http url w)
           end.

(** [resp.raise_for_status()] *)
Definition raise_for_status (r : Response) : M unit :=
  if ((400 <=? status_code r) && (status_code r <? 600))%Z
  then raise (HTTPError (status_code r)) else ret tt.

(** [datetime.utcnow()] *)
Definition utcnow : M PyVal :=
  fun w => (Ok (PDatetime (clock w (clock_reads w))), tick w).

(** ** External data fetch helpers *)

Definition summary_url (company : string) : string :=
  ("https://en.wikipedia.org/api/rest_v1/page/summary/"
   ++ PyStr.quote company)%string.

(** [fetch_wikipedia_summary(company)] *)
Definition fetch_wikipedia_summary (company : string) : M PyVal :=
  try_except
    (r <- requests_get (summary_url company) ;;
     if (status_code r =? 200)%Z then
       data <- lift_opt JSONDecodeError (json r) ;;
       lift (Py.get_attr "extract" (PStr "") data)
     else ret (PStr ""))
    (ret (PStr "")).

(** [el.text if el is not None else default], with [el = item.find(name)] *)
Definition child_text (name : string) (default : PyVal) (item : Element) : PyVal :=
  match ET.find name item with
  | Some el => Py.of_opt_str (ET.text el)
  | None => default
  end.

(** The dict appended for one [item] of the feed. *)
Definition news_item (company : string) (item : Element) : PyVal :=
  PDict [("company", PStr company);
         ("title", child_text "title" (PStr "") item);
         ("url", child_text "link" (PStr "") item);
         ("source", child_text "source" (PStr "Google News") item);
         ("published_at", child_text "pubDate" (PStr "") item);
         ("summary", child_text "description" PNone item);
         ("tags", PList [])].

(** [locale or "en-US"] *)
Definition locale_or_default (locale : option string) : string :=
  match locale with
  | Some l => if PyStr.nonempty l then l else "en-US"
  | None => "en-US"
  end.

Definition rss_url (company : string) (locale : option string) : string :=
  ("https://news.google.com/rss/search?q=" ++ PyStr.quote company
   ++ "&hl=" ++ locale_or_default locale ++ "&gl=US&ceid=US:en")%string.

(** [fetch_google_news_rss(company, locale, limit)] *)
Definition fetch_google_news_rss `{Libs} (company : string)
    (locale : option string) (limit : Z) : M (list PyVal) :=
  try_except
    (resp <- requests_get (rss_url company locale) ;;
     raise_for_status resp ;;
     root <- lift_opt ParseError (fromstring (text resp)) ;;
     ret (fold_left (fun items item => items ++ [news_item company item])
                    (PySlice.upto limit (ET.findall_descendants "item" root))
                    []))
    (ret []).

(** [float(s)] *)
Definition py_float `{Libs} (s : string) : Result spec_float :=
  match float_of_string s with
  | Some x => Ok x
  | None => Raise ValueError
  end.

(** The body of the inner [try] of [fetch_stooq_prices]: unpack the six
    fields of a row and convert them. *)
Definition price_bar `{Libs} (row : string) : Result PyVal :=
  match PyStr.split "," row with
  | [date; open_; high; low; close; volume] =>
      let? o := py_float open_ in
      let? h := py_float high in
      let? l := py_float low in
      let? c := py_float close in
      let? v := py_float volume in
      let? n := Py.int_of_float v in
      Ok (PDict [("date", PStr date);
                 ("open", PFloat o);
                 ("high", PFloat h);
                 ("low", PFloat l);
                 ("close", PFloat c);
                 ("volume", PInt n)])
  | _ => Raise ValueError
  end.

(** One turn of the loop over the rows: append, or [continue] on an error. *)
Definition add_row `{Libs} (rows : list PyVal) (row : string) : list PyVal :=
  match price_bar row with
  | Ok d => rows ++ [d]
  | Raise _ => rows
  end.

Definition stooq_url (ticker : string) : string :=
  ("https://stooq.com/q/d/l/?s=" ++ PyStr.lower ticker ++ "&i=d")%string.

(** The guard [r.status_code != 200 or not r.text or
    r.text.startswith("<!DOCTYPE")]. *)
Definition no_csv (r : Response) : bool :=
  negb (status_code r =? 200)%Z
  || negb (PyStr.nonempty (text r))
  || PyStr.startswith "<!DOCTYPE" (text r).

(** [lines[1:][-limit:]] of the stripped body *)
Definition data_rows (body : string) (limit : Z) : list string :=
  PySlice.from (- limit) (PySlice.from 1 (PyStr.splitlines (PyStr.strip body))).

(** [fetch_stooq_prices(ticker, limit)] *)
Definition fetch_stooq_prices `{Libs} (ticker : option string) (limit : Z)
  : M (list PyVal) :=
  match ticker with
  | None => ret []
  | Some t =>
      if negb (PyStr.nonempty t) then ret []
      else
        try_except
          (r <- requests_get (stooq_url t) ;;
           if no_csv r then ret []
           else ret (fold_left add_row (data_rows (text r) limit) []))
          (ret [])
  end.

(** ** The persistence gateway *)

(** Modelled from the spec: [create_document] of the persistence gateway
    ([database.py] is not among the sources).  A write either fails, which
    the gateway raises, or appends the document to the named collection;
    there is no key, no update in place and nothing transactional. *)
Definition create_document (collection : string) (doc : PyVal) : M unit :=
  fun w =>
    let call := DbWrite collection doc in
    if store_fault w (List.length (db_calls w)) call
    then (Raise StoreError, log_db call w)
    else (Ok tt, store_doc collection doc (log_db call w)).

(** A document matches a filter when it has every field of the filter with
    exactly that value. *)
Definition matches (filter doc : PyVal) : bool :=
  match filter, doc with
  | PDict f, PDict d =>
      forallb (fun kv => match Py.lookup (fst kv) d with
                         | Some v => Py.eqb (snd kv) v
                         | None => false
                         end) f
  | _, _ => false
  end.

Definition in_collection (collection : string) (filter : PyVal)
    (entry : string * PyVal) : bool :=
  String.eqb (fst entry) collection && matches filter (snd entry).

(** Modelled from the spec: [get_documents] of the persistence gateway
    ([database.py] is not among the sources).  A read either fails, which
    the gateway raises, or returns up to [limit] of the most recently stored
    documents of the collection that match the filter. *)
Definition get_documents (collection : string) (filter : PyVal) (limit : Z)
  : M (list PyVal) :=
  fun w =>
    let call := DbRead collection filter limit in
    if store_fault w (List.length (db_calls w)) call
    then (Raise StoreError, log_db call w)
    else (Ok (firstn (Z.to_nat limit)
                (map snd (List.filter (in_collection collection filter) (db_docs w)))),
          log_db call w).

(** ** API routes *)

Module SearchRequest.
Record t : Type := mk {
  company : string;
  ticker : option string;
  locale : option string
}.
End SearchRequest.

(** What pydantic accepts for a [datetime] field: a datetime as it is, and
    whatever else its parser converts (timestamps, ISO text); the conversion
    is the library's. *)
Class Pydantic : Type := {
  to_datetime : PyVal -> option Z;
  to_datetime_datetime : forall t, to_datetime (PDatetime t) = Some t
}.

(** The response model.  [mk] builds the validated record; [make] is the
    constructor call [InsightResponse(...)], which validates the values
    against the declared field types and raises [ValidationError] when one
    does not fit. *)
Module InsightResponse.
Record t : Type := mk {
  company : PyVal;
  summary : PyVal;
  financials : PyVal;
  market_trends : PyVal;
  competitors : PyVal;
  pricing : PyVal;
  projections : PyVal;
  prices : PyVal;
  last_refreshed : PyVal
}.

(** [str] *)
Definition is_str (v : PyVal) : bool :=
  match v with PStr _ => true | _ => false end.

(** [Dict[str, Any]]: the keys of a [PDict] are strings already. *)
Definition is_dict (v : PyVal) : bool :=
  match v with PDict _ => true | _ => false end.

(** [List[...]] with the given check on the elements *)
Definition is_list_of (p : PyVal -> bool) (v : PyVal) : bool :=
  match v with PList l => forallb p l | _ => false end.

Definition make `{Pydantic} (company summary financials market_trends
    competitors pricing projections prices last_refreshed : PyVal) : Result t :=
  if is_str company && is_str summary && is_dict financials
     && is_list_of is_str market_trends && is_list_of is_dict competitors
     && is_dict pricing && is_dict projections && is_list_of is_dict prices
  then match to_datetime last_refreshed with
       | Some t =>
           Ok (mk company summary financials market_trends competitors
                 pricing projections prices (PDatetime t))
       | None => Raise ValidationError
       end
  else Raise ValidationError.
End InsightResponse.

Definition financials_placeholder : PyVal :=
  PDict [("revenue", PNone);
         ("profit_margin", PNone);
         ("valuation", PNone);
         ("note", PStr "Financial metrics require premium data sources. Showing available open data only.")].

Definition market_trends_of (news_items : list PyVal) : PyVal :=
  PList [PStr ("Media coverage: " ++ PyStr.of_nat (List.length news_items)
               ++ " recent articles discovered")%string;
         PStr "Monitoring public sources for mentions and sentiment"].

Definition pricing_placeholder : PyVal :=
  PDict [("model", PStr "Unknown");
         ("notes", PStr "Pricing analysis requires domain-specific sources.")].

Definition projections_placeholder : PyVal :=
  PDict [("outlook", PStr "Neutral");
         ("assumptions", PList [PStr "Based on recent public signals only"])].

(** [summary or f"No summary available for {company}."] *)
Definition summary_or_default (summary : PyVal) (company : string) : PyVal :=
  Py.or_else summary (PStr ("No summary available for " ++ company ++ ".")%string).

(** The [snapshot] dict of [run_search]. *)
Definition snapshot_of (company : string) (summary : PyVal)
    (news_items : list PyVal) (now : PyVal) : PyVal :=
  PDict [("company", PStr company);
         ("summary", summary_or_default summary company);
         ("financials", financials_placeholder);
         ("market_trends", market_trends_of news_items);
         ("competitors", PList []);
         ("pricing", pricing_placeholder);
         ("projections", projections_placeholder);
         ("last_refreshed", now)].

Definition query_doc (company : string) (locale : option string) : PyVal :=
  PDict [("company", PStr company); ("locale", Py.of_opt_str locale)].

(** The best-effort block of [run_search]: the outer [try] with the three
    kinds of write, the news and query writes in a [try] of their own. *)
Definition persist (company : string) (locale : option string)
    (summary : PyVal) (news_items : list PyVal) : M unit :=
  try_except
    (now <- utcnow ;;
     create_document "insight" (snapshot_of company summary news_items now) ;;
     for_each news_items
       (fun n => try_except (create_document "news" n) (ret tt)) ;;
     try_except (create_document "companyquery" (query_doc company locale))
                (ret tt))
    (ret tt).

(** [run_search(payload)], the handler of [POST /api/search] *)
Definition run_search `{Libs} `{Pydantic} (payload : SearchRequest.t)
  : M InsightResponse.t :=
  let company := PyStr.strip (SearchRequest.company payload) in
  if negb (PyStr.nonempty company)
  then raise (HTTPException 400 "Company is required")
  else
    summary <- fetch_wikipedia_summary company ;;
    news_items <- fetch_google_news_rss company (SearchRequest.locale payload) 8 ;;
    prices <- fetch_stooq_prices (SearchRequest.ticker payload) 60 ;;
    persist company (SearchRequest.locale payload) summary news_items ;;
    now <- utcnow ;;
    lift (InsightResponse.make
            (PStr company)
            (summary_or_default summary company)
            financials_placeholder
            (market_trends_of news_items)
            (PList [])
            pricing_placeholder
            projections_placeholder
            (PList prices)
            now).

(** The three fetches of [run_search], in the order it makes them. *)
Definition gather `{Libs} (company : string) (payload : SearchRequest.t)
  : M (PyVal * list PyVal * list PyVal) :=
  summary <- fetch_wikipedia_summary company ;;
  news_items <- fetch_google_news_rss company (SearchRequest.locale payload) 8 ;;
  prices <- fetch_stooq_prices (SearchRequest.ticker payload) 60 ;;
  ret (summary, news_items, prices).

(** One turn of the loop of [get_insights]: the record built, and validated,
    from a stored document; the default of [last_refreshed] reads the clock
    every time. *)
Definition insight_of_doc `{Pydantic} (company : string) (d : PyVal)
  : M InsightResponse.t :=
  c <- lift (Py.get_attr "company" (PStr company) d) ;;
  s <- lift (Py.get_attr "summary" (PStr "") d) ;;
  f <- lift (Py.get_attr "financials" (PDict []) d) ;;
  m <- lift (Py.get_attr "market_trends" (PList []) d) ;;
  k <- lift (Py.get_attr "competitors" (PList []) d) ;;
  p <- lift (Py.get_attr "pricing" (PDict []) d) ;;
  j <- lift (Py.get_attr "projections" (PDict []) d) ;;
  now <- utcnow ;;
  t <- lift (Py.get_attr "last_refreshed" now d) ;;
  lift (InsightResponse.make c s f m k p j (PList []) t).

Fixpoint collect {A B} (l : list A) (f : A -> M B) (acc : list B) : M (list B) :=
  match l with
  | [] => ret acc
  | x :: r => b <- f x ;; collect r f (acc ++ [b])
  end.

(** [get_insights(company)], the handler of [GET /api/insights]: the read is
    guarded, the loop that builds the records is not. *)
Definition get_insights `{Pydantic} (company : string)
  : M (list InsightResponse.t) :=
  docs <- try_except
            (get_documents "insight" (PDict [("company", PStr company)]) 3)
            (ret []) ;;
  collect docs (insight_of_doc company) [].

(** The status code the framework answers with: 200 for a returned value,
    the code of an [HTTPException], 500 for any other exception. *)
Definition http_status {A} (r : Result A) : Z :=
  match r with
  | Ok _ => 200
  | Raise (HTTPException code _) => code
  | Raise _ => 500
  end.

(** ** Concrete libraries and worlds for the examples *)

Module Demo.

Definition feed : string :=
  "<rss><channel><item><title>Acme rises</title><link>http://n/1</link></item><item><source>Wire</source></item></channel></rss>".

Definition feed_tree : Element :=
  Elem "rss" None
    [Elem "channel" None
       [Elem "item" None
          [Elem "title" (Some "Acme rises") [];
           Elem "link" (Some "http://n/1") []];
        Elem "item" None
          [Elem "source" (Some "Wire") []]]].

(** Knows the one document [feed]; nothing else parses. *)
Definition fromstring (s : string) : option Element :=
  if String.eqb s feed then Some feed_tree else None.

(** Reads an unsigned decimal numeral; nothing else converts. *)
Definition float_of_string (s : string) : option spec_float :=
  match s with
  | EmptyString => None
  | _ =>
      match NilEmpty.uint_of_string s with
      | Some u =>
          match N.of_uint u with
          | N0 => Some (S754_zero false)
          | Npos p => Some (S754_finite false p 0)
          end
      | None => None
      end
  end.

Definition libs : Libs := Build_Libs fromstring float_of_string.

(** Takes a datetime for a datetime field and nothing else. *)
Definition only_datetime (v : PyVal) : option Z :=
  match v with PDatetime t => Some t | _ => None end.

Definition pydantic : Pydantic := Build_Pydantic only_datetime (fun _ => eq_refl).

Definition newline : string := String "010" EmptyString.

(** Ten data rows under the header; the third has five fields. *)
Definition csv : string :=
  String.concat newline
    ["Date,Open,High,Low,Close,Volume";
     "2024-01-02,10,12,9,11,1000";
     "2024-01-03,11,13,10,12,1100";
     "2024-01-04,12,14,11,13";
     "2024-01-05,13,15,12,14,1300";
     "2024-01-08,14,16,13,15,1400";
     "2024-01-09,15,17,14,16,1500";
     "2024-01-10,16,18,15,17,1600";
     "2024-01-11,17,19,16,18,1700";
     "2024-01-12,18,20,17,19,1800";
     "2024-01-15,19,21,18,20,1900"].

Definition wiki_url : string :=
  "https://en.wikipedia.org/api/rest_v1/page/summary/Acme".

Definition wiki_ok : Response :=
  mkResponse 200 "{}" (Some (PDict [("extract", PStr "Acme makes anvils.")])).

Definition wiki_500 : Response := mkResponse 500 "Internal Server Error" None.

(** A reply whose "extract" is a number. *)
Definition wiki_number : Response :=
  mkResponse 200 "{}" (Some (PDict [("extract", PInt 5)])).

Definition wiki_no_extract : Response :=
  mkResponse 200 "{}" (Some (PDict [("title", PStr "Acme")])).

(** The same feed with the first title left open. *)
Definition broken_feed : string :=
  "<rss><channel><item><title>Acme rises<link>http://n/1</link></item><item><source>Wire</source></item></channel></rss>".

(** The upstream services: the encyclopedia answers with [wiki], the feed
    with the body [rss], the price endpoint with [csv]; any other request
    fails. *)
Definition upstream_with (wiki : option Response) (rss : string)
    (n : nat) (url : string) : option Response :=
  if String.eqb url wiki_url then wiki
  else if String.eqb url (rss_url "Acme" None) then Some (mkResponse 200 rss None)
  else if String.eqb url (stooq_url "ACME") then Some (mkResponse 200 csv None)
  else None.

Definition upstream (wiki : option Response) : nat -> string -> option Response :=
  upstream_with wiki feed.

Definition clock (n : nat) : Z := 1700000000 + Z.of_nat n.

Definition never (n : nat) (c : DbCall) : bool := false.
Definition always (n : nat) (c : DbCall) : bool := true.
Definition first_only (n : nat) (c : DbCall) : bool := Nat.eqb n 0.
Definition news_only (n : nat) (c : DbCall) : bool :=
  match c with
  | DbWrite collection _ => String.eqb collection "news"
  | DbRead _ _ _ => false
  end.

Definition world (wiki : option Response) (fault : nat -> DbCall -> bool) : World :=
  mkWorld (upstream wiki) clock fault [] 0 [] [].

Definition broken_feed_world : World :=
  mkWorld (upstream_with (Some wiki_ok) broken_feed) clock never [] 0 [] [].

(** The second item of [feed_tree]: a source and nothing else. *)
Definition bare_item : Element :=
  Elem "item" None [Elem "source" (Some "Wire") []].

Definition not_found : Response := mkResponse 404 "Not Found" None.

(** Every request is answered 404. *)
Definition not_found_world : World :=
  mkWorld (fun _ _ => Some not_found) clock never [] 0 [] [].

(** The encyclopedia answers the very first request with [wiki_number] and
    every later one with [wiki_ok]. *)
Definition number_first (n : nat) (url : string) : option Response :=
  if Nat.eqb n 0 then upstream (Some wiki_number) n url
  else upstream (Some wiki_ok) n url.

Definition number_first_world : World :=
  mkWorld number_first clock never [] 0 [] [].

Definition acme : SearchRequest.t :=
  SearchRequest.mk " Acme " (Some "ACME") None.

Definition blank : SearchRequest.t :=
  SearchRequest.mk "   " (Some "ACME") None.

End Demo.

(** The world with another fault oracle for the store. *)
Definition with_store_fault (fault : nat -> DbCall -> bool) (w : World) : World :=
  mkWorld (http_reply w) (clock w) fault
          (http_log w) (clock_reads w) (db_calls w) (db_docs w).


(** The world after the GETs of [urls], nothing else touched. *)
Definition fetched (urls : list string) (w : World) : World :=
  mkWorld (http_reply w) (clock w) (store_fault w)
          (http_log w ++ urls) (clock_reads w) (db_calls w) (db_docs w).

(** The world after the store calls [calls], of which the documents [docs]
    (newest first) were stored, nothing else touched. *)
Definition written (calls : list DbCall) (docs : list (string * PyVal))
    (w : World) : World :=
  mkWorld (http_reply w) (clock w) (store_fault w)
          (http_log w) (clock_reads w) (db_calls w ++ calls) (docs ++ db_docs w).

(** The news documents the loop of [run_search] leaves in the store (newest
    first) when its first write is the [k]-th call of the store: each item
    whose own write is accepted. *)
Fixpoint stored_news (fault : nat -> DbCall -> bool) (k : nat)
    (news : list PyVal) : list (string * PyVal) :=
  match news with
  | [] => []
  | n :: r =>
      stored_news fault (S k) r
      ++ (if fault k (DbWrite "news" n) then [] else [("news", n)])
  end.

(** What a row of the CSV contributes to the result: its bar, or nothing. *)
Definition row_bars `{Libs} (row : string) : list PyVal :=
  match price_bar row with
  | Ok d => [d]
  | Raise _ => []
  end.

(** The ways the encyclopedia yields no extract: the request fails (network
    error, timeout), the status is not 200, the body is not JSON, or the
    JSON is no object or an object without the field. *)
Inductive no_extract : option Response -> Prop :=
| ne_failed : no_extract None
| ne_status r : status_code r <> 200%Z -> no_extract (Some r)
| ne_not_json r : json r = None -> no_extract (Some r)
| ne_not_object r v :
    json r = Some v -> (forall d, v <> PDict d) -> no_extract (Some r)
| ne_no_field r d :
    json r = Some (PDict d) -> Py.lookup "extract" d = None -> no_extract (Some r).


(** The reading of "the writes of a search are independent" under which the
    failure of one write never keeps another from being attempted: after
    the search, the insight write, a write per fetched news item and the
    query write are all among the calls made to the store. *)
Definition every_write_attempted `{Libs} `{Pydantic} (payload : SearchRequest.t)
    (w : World)
  : Prop :=
  let c := PyStr.strip (SearchRequest.company payload) in
  let calls := db_calls (snd (run_search payload w)) in
  forall summary news prices w1,
    gather c payload w = (Ok (summary, news, prices), w1) ->
    (exists now, In (DbWrite "insight" (snapshot_of c summary news now)) calls)
    /\ (forall n, In n news -> In (DbWrite "news" n) calls)
    /\ In (DbWrite "companyquery" (query_doc c (SearchRequest.locale payload))) calls.

(** ** The news route *)

(** [datetime.isoformat] on a timestamp, a library function the program only
    calls. *)
Class DatetimeLib : Type := {
  isoformat : Z -> string
}.

(** [d[k] = v] on a dict: the value of an existing key is replaced where it
    stands, a new key goes to the end. *)
Fixpoint set_item (k : string) (v : PyVal) (d : list (string * PyVal))
  : list (string * PyVal) :=
  match d with
  | [] => [(k, v)]
  | (k', v') :: r =>
      if String.eqb k k' then (k, v) :: r else (k', v') :: set_item k v r
  end.

(** One turn of the loop of [get_news]: a [published_at] that is a datetime
    is replaced by its ISO text; [d.get] needs a dict. *)
Definition normalize_published `{DatetimeLib} (d : PyVal) : Result PyVal :=
  match d with
  | PDict e =>
      match Py.get "published_at" PNone e with
      | PDatetime t => Ok (PDict (set_item "published_at" (PStr (isoformat t)) e))
      | _ => Ok d
      end
  | _ => Raise AttributeError
  end.

(** The loop of [get_news] over the documents, in order. *)
Fixpoint normalize_all `{DatetimeLib} (docs : list PyVal) : Result (list PyVal) :=
  match docs with
  | [] => Ok []
  | d :: r =>
      let? d' := normalize_published d in
      let? r' := normalize_all r in
      Ok (d' :: r')
  end.

(** [get_news(company, limit)], the handler of [GET /api/news]: the [try]
    yields the stored documents when there are any, and the live feed is
    fetched, with the default locale, when it yields nothing or raises. *)
Definition get_news `{Libs} `{DatetimeLib} (company : string) (limit : Z)
  : M (list PyVal) :=
  found <- try_except
             (docs <- get_documents "news" (PDict [("company", PStr company)]) limit ;;
              match docs with
              | [] => ret None
              | _ :: _ => docs' <- lift (normalize_all docs) ;; ret (Some docs')
              end)
             (ret None) ;;
  match found with
  | Some docs => ret docs
  | None => fetch_google_news_rss company None limit
  end.

(** The requests [fetch_stooq_prices] makes for a ticker. *)
Definition stooq_requests (ticker : option string) : list string :=
  match ticker with
  | Some t => if PyStr.nonempty t then [stooq_url t] else []
  | None => []
  end.

(** The world after [n] more readings of the clock. *)
Definition ticked (n : nat) (w : World) : World :=
  mkWorld (http_reply w) (clock w) (store_fault w)
          (http_log w) (n + clock_reads w) (db_calls w) (db_docs w).

Definition is_write (c : DbCall) : bool :=
  match c with
  | DbWrite _ _ => true
  | DbRead _ _ _ => false
  end.

(** The shape of a price bar: the six fields in order, the prices floats and
    the volume an integer. *)
Definition is_bar (b : PyVal) : Prop :=
  exists date o h l c v,
    b = PDict [("date", PStr date); ("open", PFloat o); ("high", PFloat h);
               ("low", PFloat l); ("close", PFloat c); ("volume", PInt v)].

(** The filter [{"company": company}] of the read routes. *)
Definition by_company (company : string) : PyVal :=
  PDict [("company", PStr company)].

(** How [get_news] hands out a stored document: the same keys in the same
    order with the same values, but for a [published_at] that was a datetime
    and is now its ISO text. *)
Definition published_as_text `{DatetimeLib} (d d' : PyVal) : Prop :=
  exists e e',
    d = PDict e /\ d' = PDict e'
    /\ map fst e' = map fst e
    /\ (forall k, k <> "published_at" -> Py.lookup k e' = Py.lookup k e)
    /\ Py.lookup "published_at" e'
       = match Py.lookup "published_at" e with
         | Some (PDatetime t) => Some (PStr (isoformat t))
         | o => o
         end.

Module Sample.

(** The seconds of the timestamp in decimal, standing for the ISO text. *)
Definition isoformat (t : Z) : string := NilZero.string_of_int (Z.to_int t).

Definition datetime_lib : DatetimeLib := Build_DatetimeLib isoformat.

Definition stored_item : PyVal :=
  PDict [("company", PStr "Acme"); ("title", PStr "Old news");
         ("published_at", PDatetime 1600000000)].

(** A world whose store holds one news document for Acme, with the upstream
    of [Demo]. *)
Definition with_news (fault : nat -> DbCall -> bool) : World :=
  mkWorld (Demo.upstream (Some Demo.wiki_ok)) Demo.clock fault [] 0 []
          [("news", stored_item)].

Definition no_ticker : SearchRequest.t :=
  SearchRequest.mk "Acme" None None.

(** Every upstream request fails. *)
Definition offline : World :=
  mkWorld (fun _ _ => None) Demo.clock Demo.never [] 0 [] [].

End Sample.

(** * Properties *)

(** ** The string and slice helpers on examples *)

Example strip_acme : PyStr.strip "  Acme Corp
 " = "Acme Corp".
Proof. reflexivity. Qed.

Example splitlines_crlf :
  PyStr.splitlines (String "a" (String "013" (String "010" (String "010" "b"))))
  = ["a"; ""; "b"].
Proof. reflexivity. Qed.

Example split_row : PyStr.split "," "2024-01-02,1,2,,4" = ["2024-01-02"; "1"; "2"; ""; "4"].
Proof. reflexivity. Qed.

Example quote_acme : PyStr.quote "Acme & Co/x" = "Acme%20%26%20Co/x".
Proof. reflexivity. Qed.

Example tail_slice_zero : PySlice.from (- 0) [1; 2; 3]%Z = [1; 2; 3]%Z.
Proof. reflexivity. Qed.

Example tail_slice_two : PySlice.from (- 2) [1; 2; 3]%Z = [2; 3]%Z.
Proof. reflexivity. Qed.

Example lower_ticker : PyStr.lower "AAPL.us" = "aapl.us".
Proof. reflexivity. Qed.

Example head_slice_negative : PySlice.upto (- 1) [1; 2; 3]%Z = [1; 2]%Z.
Proof. reflexivity. Qed.

Example int_of_float_truncates :
  Py.int_of_float (S754_finite true 7 (- 1)) = Ok (- 3)%Z.
Proof. reflexivity. Qed.

Example findall_items :
  List.length (ET.findall_descendants "item" Demo.feed_tree) = 2%nat.
Proof. reflexivity. Qed.

(** ** Whitespace *)

Lemma lstrip_all_space (s : string) :
  PyStr.all_space s = true -> PyStr.lstrip s = "".
Proof.
  induction s as [|c r IH]; simpl; [reflexivity|].
  destruct (PyStr.isspace c); simpl; [exact IH | discriminate].
Qed.

Lemma strip_all_space (s : string) :
  PyStr.all_space s = true -> PyStr.strip s = "".
Proof.
  intros H. unfold PyStr.strip. rewrite (lstrip_all_space s H). reflexivity.
Qed.

Lemma lstrip_head (s : string) :
  match PyStr.lstrip s with
  | EmptyString => PyStr.all_space s = true
  | String c _ => PyStr.isspace c = false
  end.
Proof.
  induction s as [|c r IH]; simpl; [reflexivity|].
  destruct (PyStr.isspace c) eqn:E; simpl; [exact IH | exact E].
Qed.

Lemma rstrip_empty (s : string) :
  PyStr.rstrip s = "" -> PyStr.all_space s = true.
Proof.
  induction s as [|c r IH]; simpl; [reflexivity|].
  destruct (PyStr.rstrip r) eqn:E; [|discriminate].
  destruct (PyStr.isspace c); [intros _; simpl; apply IH; reflexivity | discriminate].
Qed.

(** Trimming leaves nothing exactly when the string is blank. *)
Lemma strip_empty_iff (s : string) :
  PyStr.strip s = "" <-> PyStr.all_space s = true.
Proof.
  split; [|apply strip_all_space].
  unfold PyStr.strip. intros H. apply rstrip_empty in H.
  pose proof (lstrip_head s) as Hh.
  destruct (PyStr.lstrip s) as [|c r]; [exact Hh|].
  simpl in H. rewrite Hh in H. discriminate.
Qed.

Lemma nonempty_false (s : string) : PyStr.nonempty s = false <-> s = "".
Proof. destruct s; simpl; split; intros; congruence. Qed.

(** ** The fetch helpers *)

Ltac run_py :=
  unfold bind, ret, raise, try_except, lift, lift_opt, requests_get,
    raise_for_status, utcnow in *;
  simpl in *.

Lemma fetched_nil (w : World) : fetched [] w = w.
Proof. destruct w; unfold fetched; simpl. rewrite app_nil_r. reflexivity. Qed.

Lemma fetched_app (a b : list string) (w : World) :
  fetched b (fetched a w) = fetched (a ++ b) w.
Proof. unfold fetched; simpl. rewrite app_assoc. reflexivity. Qed.

Lemma log_http_fetched (url : string) (w : World) :
  log_http url w = fetched [url] w.
Proof. reflexivity. Qed.

Lemma upto_length {A} limit (l : list A) :
  (0 <= limit)%Z -> (List.length (PySlice.upto limit l) <= Z.to_nat limit)%nat.
Proof.
  intros H. unfold PySlice.upto.
  destruct (limit <? 0)%Z eqn:E; [apply Z.ltb_lt in E; lia|].
  rewrite length_firstn. lia.
Qed.

Section Fetchers.

Context {L : Libs}.

(** The summary fetcher never raises and makes exactly one request. *)
Lemma fetch_wikipedia_summary_total (company : string) (w : World) :
  exists v, fetch_wikipedia_summary company w
            = (Ok v, fetched [summary_url company] w).
Proof.
  unfold fetch_wikipedia_summary. run_py.
  destruct (http_reply w _ _) as [r|]; [|eexists; reflexivity].
  destruct (status_code r =? 200)%Z; [|eexists; reflexivity].
  destruct (json r) as [v|]; simpl; [|eexists; reflexivity].
  destruct v; simpl; eexists; reflexivity.
Qed.

Lemma fetch_wikipedia_summary_no_extract (company : string) (w : World) :
  no_extract (http_reply w (List.length (http_log w)) (summary_url company)) ->
  fst (fetch_wikipedia_summary company w) = Ok (PStr "").
Proof.
  unfold fetch_wikipedia_summary. run_py. intros H.
  inversion H as [E | r Hs E | r Hj E | r v Hj Hv E | r d Hj Hl E];
    try reflexivity.
  - apply Z.eqb_neq in Hs. rewrite Hs. reflexivity.
  - destruct (status_code r =? 200)%Z; [|reflexivity]. rewrite Hj. reflexivity.
  - destruct (status_code r =? 200)%Z; [|reflexivity]. rewrite Hj. simpl.
    destruct v; try reflexivity. exfalso. eapply Hv; reflexivity.
  - destruct (status_code r =? 200)%Z; [|reflexivity]. rewrite Hj. simpl.
    unfold Py.get. rewrite Hl. reflexivity.
Qed.

Lemma fold_news_items (company : string) (items : list Element) (acc : list PyVal) :
  fold_left (fun acc item => acc ++ [news_item company item]) items acc
  = acc ++ map (news_item company) items.
Proof.
  revert acc. induction items as [|i r IH]; intros acc; simpl.
  - rewrite app_nil_r. reflexivity.
  - rewrite IH, <- app_assoc. reflexivity.
Qed.

(** The news fetcher never raises and makes exactly one request. *)
Lemma fetch_google_news_rss_total company locale limit (w : World) :
  exists items, fetch_google_news_rss company locale limit w
                = (Ok items, fetched [rss_url company locale] w).
Proof.
  unfold fetch_google_news_rss. run_py.
  destruct (http_reply w _ _) as [r|]; [|eexists; reflexivity].
  destruct ((400 <=? status_code r) && (status_code r <? 600))%Z; simpl;
    [eexists; reflexivity|].
  destruct (fromstring (text r)); eexists; reflexivity.
Qed.

(** What the news fetcher returns, by the fate of the request. *)
Lemma fetch_google_news_rss_result company locale limit (w : World) :
  fst (fetch_google_news_rss company locale limit w)
  = Ok match http_reply w (List.length (http_log w)) (rss_url company locale) with
       | Some r =>
           if ((400 <=? status_code r) && (status_code r <? 600))%Z then []
           else match fromstring (text r) with
                | Some root =>
                    map (news_item company)
                        (PySlice.upto limit (ET.findall_descendants "item" root))
                | None => []
                end
       | None => []
       end.
Proof.
  unfold fetch_google_news_rss. run_py.
  destruct (http_reply w _ _) as [r|]; [|reflexivity].
  destruct ((400 <=? status_code r) && (status_code r <? 600))%Z; simpl;
    [reflexivity|].
  destruct (fromstring (text r)); [|reflexivity].
  simpl. rewrite fold_news_items. reflexivity.
Qed.

Lemma fold_add_row (rows : list string) (acc : list PyVal) :
  fold_left add_row rows acc = acc ++ flat_map row_bars rows.
Proof.
  revert acc. induction rows as [|row r IH]; intros acc; simpl.
  - rewrite app_nil_r. reflexivity.
  - rewrite IH. unfold add_row, row_bars.
    destruct (price_bar row); simpl; [rewrite <- app_assoc|]; reflexivity.
Qed.

(** The price fetcher never raises; it makes one request or none. *)
Lemma fetch_stooq_prices_total ticker limit (w : World) :
  exists rows urls, fetch_stooq_prices ticker limit w = (Ok rows, fetched urls w).
Proof.
  unfold fetch_stooq_prices.
  destruct ticker as [t|];
    [|exists [], []; rewrite fetched_nil; reflexivity].
  destruct (PyStr.nonempty t); simpl;
    [|exists [], []; rewrite fetched_nil; reflexivity].
  run_py.
  destruct (http_reply w _ _) as [r|]; [|eexists; eexists; reflexivity].
  destruct (no_csv r); eexists; eexists; reflexivity.
Qed.

(** The three fetches never raise and touch the request log only. *)
Lemma gather_total company payload (w : World) :
  exists summary news prices urls,
    gather company payload w = (Ok (summary, news, prices), fetched urls w).
Proof.
  unfold gather, bind.
  destruct (fetch_wikipedia_summary_total company w) as [summary ->].
  destruct (fetch_google_news_rss_total company (SearchRequest.locale payload) 8
              (fetched [summary_url company] w)) as [news ->].
  destruct (fetch_stooq_prices_total (SearchRequest.ticker payload) 60
              (fetched [rss_url company (SearchRequest.locale payload)]
                 (fetched [summary_url company] w))) as (prices & urls & ->).
  exists summary, news, prices. eexists. unfold ret.
  rewrite !fetched_app. reflexivity.
Qed.

Lemma gather_summary company payload (w : World) summary news prices w' :
  gather company payload w = (Ok (summary, news, prices), w') ->
  fst (fetch_wikipedia_summary company w) = Ok summary.
Proof.
  unfold gather, bind.
  destruct (fetch_wikipedia_summary company w) as [[v|e] w1]; [|discriminate].
  destruct (fetch_google_news_rss _ _ _ w1) as [[n|e] w2]; [|discriminate].
  destruct (fetch_stooq_prices _ _ w2) as [[p|e] w3]; [|discriminate].
  unfold ret. intros H; inversion H; subst. reflexivity.
Qed.

(** The price fetcher makes the request of [stooq_requests] and touches
    nothing else. *)
Lemma fetch_stooq_prices_world ticker limit (w : World) :
  snd (fetch_stooq_prices ticker limit w) = fetched (stooq_requests ticker) w.
Proof.
  unfold fetch_stooq_prices, stooq_requests.
  destruct ticker as [t|]; [|simpl; rewrite fetched_nil; reflexivity].
  destruct (PyStr.nonempty t); simpl; [|rewrite fetched_nil; reflexivity].
  run_py. destruct (http_reply w _ _) as [r|]; [|reflexivity].
  destruct (no_csv r); reflexivity.
Qed.

(** The results of the three fetches and the world they leave. *)
Lemma gather_components company payload (w : World) summary news prices w1 :
  gather company payload w = (Ok (summary, news, prices), w1) ->
  fst (fetch_wikipedia_summary company w) = Ok summary
  /\ fst (fetch_google_news_rss company (SearchRequest.locale payload) 8
            (fetched [summary_url company] w)) = Ok news
  /\ fst (fetch_stooq_prices (SearchRequest.ticker payload) 60
            (fetched [summary_url company;
                      rss_url company (SearchRequest.locale payload)] w))
     = Ok prices
  /\ w1 = fetched ([summary_url company;
                    rss_url company (SearchRequest.locale payload)]
                   ++ stooq_requests (SearchRequest.ticker payload)) w.
Proof.
  unfold gather, bind.
  destruct (fetch_wikipedia_summary_total company w) as [s ->].
  destruct (fetch_google_news_rss_total company (SearchRequest.locale payload) 8
              (fetched [summary_url company] w)) as [n E]. rewrite E.
  rewrite fetched_app. simpl app.
  pose proof (fetch_stooq_prices_world (SearchRequest.ticker payload) 60
                (fetched [summary_url company;
                          rss_url company (SearchRequest.locale payload)] w)) as Hw.
  destruct (fetch_stooq_prices _ 60 _) as [[p|e] w2]; [|discriminate].
  unfold ret. intros H. inversion H; subst. simpl in Hw. subst w1.
  rewrite fetched_app. repeat split.
Qed.

Lemma news_length company locale limit (w : World) news :
  fst (fetch_google_news_rss company locale limit w) = Ok news ->
  (0 <= limit)%Z ->
  (List.length news <= Z.to_nat limit)%nat.
Proof.
  rewrite fetch_google_news_rss_result. intros H Hl. inversion H as [Hn]. clear H.
  destruct (http_reply w _ _) as [r|]; [|simpl; lia].
  destruct ((400 <=? status_code r) && (status_code r <? 600))%Z; [simpl; lia|].
  destruct (fromstring (text r)); [|simpl; lia].
  rewrite length_map. apply upto_length. exact Hl.
Qed.

Lemma price_bar_shape row d : price_bar row = Ok d -> is_bar d.
Proof.
  unfold price_bar, py_float.
  destruct (PyStr.split "," row) as [|a [|b [|c [|e [|f [|g [|h t]]]]]]];
    try discriminate.
  destruct (float_of_string b); [|discriminate].
  destruct (float_of_string c); [|discriminate].
  destruct (float_of_string e); [|discriminate].
  destruct (float_of_string f); [|discriminate].
  destruct (float_of_string g) as [v|]; [|discriminate].
  destruct (Py.int_of_float v); [|discriminate].
  intros H. inversion H. repeat eexists.
Qed.

Lemma row_bars_shape rows : Forall is_bar (flat_map row_bars rows).
Proof.
  induction rows as [|row r IH]; simpl; [constructor|].
  apply Forall_app. split; [|exact IH].
  unfold row_bars. destruct (price_bar row) eqn:E; repeat constructor.
  apply (price_bar_shape row). exact E.
Qed.

Lemma row_bars_count rows :
  (List.length (flat_map row_bars rows) <= List.length rows)%nat.
Proof.
  induction rows as [|row r IH]; simpl; [lia|].
  rewrite length_app. unfold row_bars at 1.
  destruct (price_bar row); simpl; lia.
Qed.

(** What the price fetcher returns: nothing, or the bars of the selected
    rows of the reply. *)
Lemma fetch_stooq_prices_result ticker limit (w : World) :
  fst (fetch_stooq_prices ticker limit w) = Ok []
  \/ exists r, fst (fetch_stooq_prices ticker limit w)
               = Ok (flat_map row_bars (data_rows (text r) limit)).
Proof.
  unfold fetch_stooq_prices.
  destruct ticker as [t|]; [|left; reflexivity].
  destruct (PyStr.nonempty t); simpl; [|left; reflexivity].
  run_py. destruct (http_reply w _ _) as [r|]; [|left; reflexivity].
  destruct (no_csv r); [left; reflexivity|].
  right. exists r. simpl. rewrite fold_add_row. reflexivity.
Qed.

(** The price list of a search is a list of dicts. *)
Lemma gather_prices_dicts company payload (w : World) summary news prices w1 :
  gather company payload w = (Ok (summary, news, prices), w1) ->
  forallb InsightResponse.is_dict prices = true.
Proof.
  intros G. destruct (gather_components company payload w _ _ _ _ G)
    as (_ & _ & Hp & _).
  assert (Hb : Forall is_bar prices).
  { destruct (fetch_stooq_prices_result (SearchRequest.ticker payload) 60
                (fetched [summary_url company;
                          rss_url company (SearchRequest.locale payload)] w))
      as [H | [r H]]; rewrite Hp in H; inversion H; subst;
      [constructor | apply row_bars_shape]. }
  apply forallb_forall. intros b Hin. rewrite Forall_forall in Hb.
  destruct (Hb b Hin) as (date & o & h & l & c & v & ->). reflexivity.
Qed.

End Fetchers.

(** ** The best-effort writes *)

Lemma written_nil (w : World) : written [] [] w = w.
Proof. destruct w; unfold written; simpl. rewrite app_nil_r. reflexivity. Qed.

Lemma written_app c1 d1 c2 d2 (w : World) :
  written c2 d2 (written c1 d1 w) = written (c1 ++ c2) (d2 ++ d1) w.
Proof. unfold written; simpl. rewrite !app_assoc. reflexivity. Qed.

(** A guarded write never raises: it logs the call, and stores the document
    unless the store fails. *)
Lemma guarded_write (collection : string) (doc : PyVal) (w : World) :
  try_except (create_document collection doc) (ret tt) w
  = (Ok tt,
     written [DbWrite collection doc]
       (if store_fault w (List.length (db_calls w)) (DbWrite collection doc)
        then [] else [(collection, doc)]) w).
Proof.
  unfold try_except, create_document, ret.
  destruct (store_fault w _ _); reflexivity.
Qed.

(** The loop over the news items attempts one write per item, whatever
    happens to the others, and stores the items whose own write is accepted. *)
Lemma news_writes (news : list PyVal) (w : World) :
  for_each news (fun n => try_except (create_document "news" n) (ret tt)) w
  = (Ok tt,
     written (map (DbWrite "news") news)
       (stored_news (store_fault w) (List.length (db_calls w)) news) w).
Proof.
  revert w. induction news as [|n r IH]; intros w.
  - simpl. unfold ret. rewrite written_nil. reflexivity.
  - simpl for_each. unfold bind. rewrite guarded_write, IH, written_app.
    simpl. rewrite length_app, Nat.add_1_r. reflexivity.
Qed.

Lemma stored_news_collection fault k news :
  Forall (fun e => fst e = "news") (stored_news fault k news).
Proof.
  revert k. induction news as [|n r IH]; intros k; simpl; [constructor|].
  apply Forall_app. split; [apply IH|].
  destruct (fault k _); repeat constructor.
Qed.

(** An item is stored when its own write is accepted, whatever the fate of
    the writes before and after it. *)
Lemma stored_news_accepted fault k news i n :
  nth_error news i = Some n ->
  fault (k + i)%nat (DbWrite "news" n) = false ->
  In ("news", n) (stored_news fault k news).
Proof.
  revert k i. induction news as [|m r IH]; intros k [|i] Hn Hf; simpl in Hn;
    try discriminate; simpl; apply in_or_app.
  - inversion Hn; subst m. rewrite Nat.add_0_r in Hf. rewrite Hf.
    right. left. reflexivity.
  - left. apply (IH (S k) i Hn). replace (k + S i)%nat with (S k + i)%nat in Hf by lia. exact Hf.
Qed.

Lemma stored_news_none news k :
  stored_news (fun _ _ => true) k news = [].
Proof. revert k. induction news as [|n r IH]; intros k; simpl; [|rewrite IH]; reflexivity. Qed.

(** The best-effort block never raises.  It reads the clock once.  When the
    insight write fails, nothing else is attempted; when it is accepted, each
    news item and the query are written under a guard of their own. *)
Lemma persist_run company locale summary news (w : World) :
  let k := List.length (db_calls w) in
  let snap := snapshot_of company summary news (PDatetime (clock w (clock_reads w))) in
  let insight := DbWrite "insight" snap in
  let query := DbWrite "companyquery" (query_doc company locale) in
  persist company locale summary news w
  = (Ok tt,
     if store_fault w k insight
     then written [insight] [] (tick w)
     else written (insight :: map (DbWrite "news") news ++ [query])
            ((if store_fault w (S k + List.length news) query
              then [] else [("companyquery", query_doc company locale)])
             ++ stored_news (store_fault w) (S k) news
             ++ [("insight", snap)])
            (tick w)).
Proof.
  intros k snap insight query.
  unfold persist. unfold try_except at 1. unfold bind at 1. unfold utcnow at 1.
  unfold bind at 1. unfold create_document at 1.
  change (store_fault (tick w)) with (store_fault w).
  change (db_calls (tick w)) with (db_calls w).
  fold snap. fold insight. fold k.
  destruct (store_fault w k insight); [reflexivity|].
  unfold bind at 1. rewrite news_writes.
  rewrite guarded_write.
  change (store_doc "insight" snap (log_db insight (tick w)))
    with (written [insight] [("insight", snap)] (tick w)).
  rewrite !written_app. simpl. fold query.
  replace (List.length (db_calls w ++ insight :: map (DbWrite "news") news))
    with (S (k + List.length news))
    by (rewrite length_app; simpl; rewrite length_map; unfold k; lia).
  replace (List.length (db_calls w ++ [insight])) with (S k)
    by (rewrite length_app; simpl; unfold k; lia).
  rewrite <- app_assoc. reflexivity.
Qed.

(** ** The response model *)

Section Validation.

Context {V : Pydantic}.

(** A record that was built has the values it was built from, a string for
    its summary, and the datetime its last field converts to. *)
Lemma make_inv a b c d e f g h l r :
  InsightResponse.make a b c d e f g h l = Ok r ->
  exists t,
    to_datetime l = Some t
    /\ r = InsightResponse.mk a b c d e f g h (PDatetime t)
    /\ InsightResponse.is_str b = true.
Proof.
  unfold InsightResponse.make.
  destruct (InsightResponse.is_str a); simpl; [|discriminate].
  destruct (InsightResponse.is_str b); simpl; [|discriminate].
  match goal with |- (if ?x then _ else _) = _ -> _ => destruct x end;
    [|discriminate].
  destruct (to_datetime l) as [t|]; [|discriminate].
  intros H. inversion H. exists t. repeat split.
Qed.

(** Values of the declared types, with a datetime, make a record. *)
Lemma make_valid a b c d e f g h t :
  InsightResponse.is_str a = true ->
  InsightResponse.is_str b = true ->
  InsightResponse.is_dict c = true ->
  InsightResponse.is_list_of InsightResponse.is_str d = true ->
  InsightResponse.is_list_of InsightResponse.is_dict e = true ->
  InsightResponse.is_dict f = true ->
  InsightResponse.is_dict g = true ->
  InsightResponse.is_list_of InsightResponse.is_dict h = true ->
  InsightResponse.make a b c d e f g h (PDatetime t)
  = Ok (InsightResponse.mk a b c d e f g h (PDatetime t)).
Proof.
  intros Ha Hb Hc Hd He Hf Hg Hh. unfold InsightResponse.make.
  rewrite Ha, Hb, Hc, Hd, He, Hf, Hg, Hh, to_datetime_datetime. reflexivity.
Qed.

(** A summary that is no string is refused. *)
Lemma make_bad_summary a b c d e f g h l :
  InsightResponse.is_str b = false ->
  InsightResponse.make a b c d e f g h l = Raise ValidationError.
Proof.
  intros Hb. unfold InsightResponse.make. rewrite Hb.
  destruct (InsightResponse.is_str a); reflexivity.
Qed.

End Validation.

(** ** The search route *)

Section Search.

Context {L : Libs} {V : Pydantic}.

(** What [run_search] returns for given results of the fetches: the
    validated record, built after the best-effort block with the next
    reading of the clock. *)
Lemma run_search_run payload (w : World) :
  let c := PyStr.strip (SearchRequest.company payload) in
  PyStr.nonempty c = true ->
  forall summary news prices w1,
    gather c payload w = (Ok (summary, news, prices), w1) ->
    run_search payload w
    = (InsightResponse.make
         (PStr c) (summary_or_default summary c) financials_placeholder
         (market_trends_of news) (PList []) pricing_placeholder
         projections_placeholder (PList prices)
         (PDatetime (clock w1 (S (clock_reads w1)))),
       tick (snd (persist c (SearchRequest.locale payload) summary news w1))).
Proof.
  intros c Hc summary news prices w1 Hg.
  unfold run_search. fold c. rewrite Hc. cbn [negb].
  unfold gather, bind in Hg. unfold bind.
  destruct (fetch_wikipedia_summary c w) as [[v|e] wa]; [|discriminate].
  destruct (fetch_google_news_rss c _ 8 wa) as [[n|e] wb]; [|discriminate].
  destruct (fetch_stooq_prices _ 60 wb) as [[p|e] wc]; [|discriminate].
  unfold ret in Hg. inversion Hg; subst.
  rewrite persist_run. simpl snd.
  destruct (store_fault w1 _ _); reflexivity.
Qed.

(** The search returns its record exactly when the chosen summary is a
    string. *)
Lemma run_search_ok payload (w : World) :
  let c := PyStr.strip (SearchRequest.company payload) in
  PyStr.nonempty c = true ->
  forall summary news prices w1,
    gather c payload w = (Ok (summary, news, prices), w1) ->
    InsightResponse.is_str (summary_or_default summary c) = true ->
    run_search payload w
    = (Ok (InsightResponse.mk
             (PStr c) (summary_or_default summary c) financials_placeholder
             (market_trends_of news) (PList []) pricing_placeholder
             projections_placeholder (PList prices)
             (PDatetime (clock w1 (S (clock_reads w1))))),
       tick (snd (persist c (SearchRequest.locale payload) summary news w1))).
Proof.
  intros c Hc summary news prices w1 Hg Hs.
  rewrite (run_search_run payload w Hc _ _ _ _ Hg).
  rewrite make_valid; try reflexivity; [exact Hs|].
  simpl. apply (gather_prices_dicts c payload w _ _ _ _ Hg).
Qed.

Lemma run_search_invalid payload (w : World) :
  let c := PyStr.strip (SearchRequest.company payload) in
  PyStr.nonempty c = true ->
  forall summary news prices w1,
    gather c payload w = (Ok (summary, news, prices), w1) ->
    InsightResponse.is_str (summary_or_default summary c) = false ->
    fst (run_search payload w) = Raise ValidationError.
Proof.
  intros c Hc summary news prices w1 Hg Hs.
  rewrite (run_search_run payload w Hc _ _ _ _ Hg). simpl.
  apply make_bad_summary. exact Hs.
Qed.

(** A search raises nothing but a validation error. *)
Lemma run_search_raises payload (w : World) e :
  PyStr.nonempty (PyStr.strip (SearchRequest.company payload)) = true ->
  fst (run_search payload w) = Raise e -> e = ValidationError.
Proof.
  intros Hc.
  destruct (gather_total (PyStr.strip (SearchRequest.company payload)) payload w)
    as (s & n & p & u & G).
  destruct (InsightResponse.is_str
              (summary_or_default s (PyStr.strip (SearchRequest.company payload))))
    eqn:Hs.
  - rewrite (run_search_ok payload w Hc _ _ _ _ G Hs). discriminate.
  - rewrite (run_search_invalid payload w Hc _ _ _ _ G Hs).
    intros H. inversion H. reflexivity.
Qed.

(** A blank company is refused before anything else happens. *)
Lemma run_search_blank payload (w : World) :
  PyStr.strip (SearchRequest.company payload) = "" ->
  run_search payload w = (Raise (HTTPException 400 "Company is required"), w).
Proof.
  intros H. unfold run_search. rewrite H. reflexivity.
Qed.

Lemma fetch_wikipedia_summary_upstream company (w1 w2 : World) :
  http_reply w1 = http_reply w2 -> http_log w1 = http_log w2 ->
  fst (fetch_wikipedia_summary company w1) = fst (fetch_wikipedia_summary company w2).
Proof.
  intros Hr Hl. unfold fetch_wikipedia_summary. run_py. rewrite Hr, Hl.
  destruct (http_reply w2 _ _) as [r|]; [|reflexivity].
  destruct (status_code r =? 200)%Z; [|reflexivity].
  destruct (json r) as [v|]; simpl; [|reflexivity].
  destruct (Py.get_attr _ _ v); reflexivity.
Qed.

Lemma fetch_google_news_rss_upstream company locale limit (w1 w2 : World) :
  http_reply w1 = http_reply w2 -> http_log w1 = http_log w2 ->
  fst (fetch_google_news_rss company locale limit w1)
  = fst (fetch_google_news_rss company locale limit w2).
Proof.
  intros Hr Hl. rewrite !fetch_google_news_rss_result, Hr, Hl. reflexivity.
Qed.

Lemma fetch_stooq_prices_upstream ticker limit (w1 w2 : World) :
  http_reply w1 = http_reply w2 -> http_log w1 = http_log w2 ->
  fst (fetch_stooq_prices ticker limit w1) = fst (fetch_stooq_prices ticker limit w2).
Proof.
  intros Hr Hl. unfold fetch_stooq_prices.
  destruct ticker as [t|]; [|reflexivity].
  destruct (PyStr.nonempty t); simpl; [|reflexivity].
  run_py. rewrite Hr, Hl.
  destruct (http_reply w2 _ _) as [r|]; [|reflexivity].
  destruct (no_csv r); reflexivity.
Qed.

(** What the fetches return depends on the upstream replies and on the
    requests made so far, and on nothing of the store or the clock. *)
Lemma gather_upstream company payload (w1 w2 : World) :
  http_reply w1 = http_reply w2 -> http_log w1 = http_log w2 ->
  fst (gather company payload w1) = fst (gather company payload w2).
Proof.
  intros Hr Hl. unfold gather, bind.
  pose proof (fetch_wikipedia_summary_upstream company w1 w2 Hr Hl) as Hs.
  destruct (fetch_wikipedia_summary_total company w1) as [s1 E1].
  destruct (fetch_wikipedia_summary_total company w2) as [s2 E2].
  rewrite E1, E2 in *. simpl in Hs. inversion Hs; subst s2.
  set (wa1 := fetched _ w1). set (wa2 := fetched _ w2).
  assert (Hra : http_reply wa1 = http_reply wa2) by exact Hr.
  assert (Hla : http_log wa1 = http_log wa2) by (simpl; rewrite Hl; reflexivity).
  pose proof (fetch_google_news_rss_upstream company
                (SearchRequest.locale payload) 8 wa1 wa2 Hra Hla) as Hn.
  destruct (fetch_google_news_rss_total company (SearchRequest.locale payload) 8 wa1)
    as [n1 F1].
  destruct (fetch_google_news_rss_total company (SearchRequest.locale payload) 8 wa2)
    as [n2 F2].
  rewrite F1, F2 in *. simpl in Hn. inversion Hn; subst n2.
  set (wb1 := fetched _ wa1). set (wb2 := fetched _ wa2).
  assert (Hrb : http_reply wb1 = http_reply wb2) by exact Hr.
  assert (Hlb : http_log wb1 = http_log wb2) by (simpl; rewrite Hl; reflexivity).
  pose proof (fetch_stooq_prices_upstream (SearchRequest.ticker payload) 60
                wb1 wb2 Hrb Hlb) as Hp.
  destruct (fetch_stooq_prices_total (SearchRequest.ticker payload) 60 wb1)
    as (p1 & u1 & G1).
  destruct (fetch_stooq_prices_total (SearchRequest.ticker payload) 60 wb2)
    as (p2 & u2 & G2).
  rewrite G1, G2 in *. simpl in Hp. inversion Hp; subst p2.
  reflexivity.
Qed.

(** The world a search leaves, by the fate of the insight write. *)
Lemma run_search_world payload (w : World) summary news prices w1 :
  let c := PyStr.strip (SearchRequest.company payload) in
  PyStr.nonempty c = true ->
  gather c payload w = (Ok (summary, news, prices), w1) ->
  let k := List.length (db_calls w) in
  let snap := snapshot_of c summary news (PDatetime (clock w (clock_reads w))) in
  let qdoc := query_doc c (SearchRequest.locale payload) in
  snd (run_search payload w)
  = tick (if store_fault w k (DbWrite "insight" snap)
          then written [DbWrite "insight" snap] [] (tick w1)
          else written (DbWrite "insight" snap :: map (DbWrite "news") news
                          ++ [DbWrite "companyquery" qdoc])
                 ((if store_fault w (S k + List.length news)
                        (DbWrite "companyquery" qdoc)
                   then [] else [("companyquery", qdoc)])
                  ++ stored_news (store_fault w) (S k) news
                  ++ [("insight", snap)])
                 (tick w1)).
Proof.
  intros c Hc G k snap qdoc.
  rewrite (run_search_run payload w Hc _ _ _ _ G). simpl snd.
  rewrite persist_run. simpl snd.
  destruct (gather_components c payload w _ _ _ _ G) as (_ & _ & _ & ->).
  reflexivity.
Qed.

End Search.

(** ** Properties of the search route *)

Section SearchClaims.

Context {L : Libs} {V : Pydantic}.

(** Two runs that see the same upstream replies and the same clock return
    the same result, whatever their stores hold and however they fail. *)
Lemma run_search_store_irrelevant payload (w1 w2 : World) :
  PyStr.nonempty (PyStr.strip (SearchRequest.company payload)) = true ->
  http_reply w1 = http_reply w2 -> http_log w1 = http_log w2 ->
  clock w1 = clock w2 -> clock_reads w1 = clock_reads w2 ->
  fst (run_search payload w1) = fst (run_search payload w2).
Proof.
  intros Hc Hr Hl Hk Hn.
  set (c := PyStr.strip (SearchRequest.company payload)) in *.
  pose proof (gather_upstream c payload w1 w2 Hr Hl) as Hg.
  destruct (gather_total c payload w1) as (s1 & n1 & p1 & u1 & G1).
  destruct (gather_total c payload w2) as (s2 & n2 & p2 & u2 & G2).
  rewrite G1, G2 in Hg. simpl in Hg. inversion Hg; subst s2 n2 p2.
  rewrite (run_search_run payload w1 Hc _ _ _ _ G1).
  rewrite (run_search_run payload w2 Hc _ _ _ _ G2).
  simpl. rewrite Hk, Hn. reflexivity.
Qed.

(** C1.  For a request with a non-empty trimmed company, the search gives
    the same result, and so the same status code and the same record,
    whether the store fails (at any of its calls, in any pattern [fault]) or
    accepts every write.  A failure of persistence never reaches the caller:
    the only exception a search raises is the validation error of its own
    response, which the store has no part in; and where the search answers
    200 with a record when every write is accepted, it answers 200 with the
    same record when writes fail. *)
Theorem search_ignores_persistence_failure payload (w : World)
    (fault : nat -> DbCall -> bool) :
  PyStr.nonempty (PyStr.strip (SearchRequest.company payload)) = true ->
  fst (run_search payload (with_store_fault fault w))
  = fst (run_search payload (with_store_fault (fun _ _ => false) w))
  /\ http_status (fst (run_search payload (with_store_fault fault w)))
     = http_status (fst (run_search payload (with_store_fault (fun _ _ => false) w)))
  /\ (forall e,
        fst (run_search payload (with_store_fault fault w)) = Raise e ->
        e = ValidationError)
  /\ (forall resp,
        fst (run_search payload (with_store_fault (fun _ _ => false) w)) = Ok resp ->
        fst (run_search payload (with_store_fault fault w)) = Ok resp
        /\ http_status (fst (run_search payload (with_store_fault fault w)))
           = 200%Z).
Proof.
  intros Hc.
  pose proof (run_search_store_irrelevant payload
                (with_store_fault fault w) (with_store_fault (fun _ _ => false) w) Hc
                eq_refl eq_refl eq_refl eq_refl) as H.
  split; [exact H|]. split; [rewrite H; reflexivity|].
  split.
  - intros e. apply run_search_raises. exact Hc.
  - intros resp Hok. rewrite H, Hok. split; reflexivity.
Qed.

(** C2.  A company that is empty, or blank so that trimming leaves nothing,
    is answered with the client error 400 "Company is required", and the
    world is left as it was: none of the three upstream requests is made. *)
Theorem blank_company_rejected payload (w : World) :
  PyStr.strip (SearchRequest.company payload) = ""
  \/ PyStr.all_space (SearchRequest.company payload) = true ->
  run_search payload w = (Raise (HTTPException 400 "Company is required"), w)
  /\ http_status (fst (run_search payload w)) = 400%Z
  /\ http_log (snd (run_search payload w)) = http_log w.
Proof.
  intros H.
  assert (Hs : PyStr.strip (SearchRequest.company payload) = "")
    by (destruct H as [H|H]; [exact H | apply strip_all_space; exact H]).
  rewrite (run_search_blank payload w Hs). repeat split.
Qed.

(** C8.  When the encyclopedia fetch yields the empty string, and so when
    the request fails or times out, the status is not 200 (500, say), or
    the JSON carries no "extract", the summary of the returned record is
    exactly "No summary available for <company>." with the trimmed
    company. *)
Theorem summary_defaults_when_fetch_empty payload (w : World) :
  let c := PyStr.strip (SearchRequest.company payload) in
  PyStr.nonempty c = true ->
  fst (fetch_wikipedia_summary c w) = Ok (PStr "")
  \/ no_extract (http_reply w (List.length (http_log w)) (summary_url c)) ->
  exists resp w',
    run_search payload w = (Ok resp, w')
    /\ InsightResponse.summary resp
       = PStr ("No summary available for " ++ c ++ ".")%string.
Proof.
  intros c Hc H.
  assert (He : fst (fetch_wikipedia_summary c w) = Ok (PStr ""))
    by (destruct H as [H|H];
        [exact H | apply fetch_wikipedia_summary_no_extract; exact H]).
  destruct (gather_total c payload w) as (s & n & p & u & G).
  pose proof (gather_summary c payload w s n p _ G) as Hs.
  rewrite He in Hs. inversion Hs; subst s.
  rewrite (run_search_ok payload w Hc _ _ _ _ G eq_refl).
  eexists. eexists. split; reflexivity.
Qed.

(** C9.  For a successful search, the snapshot handed to the store and the
    record returned agree on company, summary, financials, market_trends,
    competitors, pricing and projections; the snapshot has no prices; its
    last_refreshed is one reading of the clock and that of the record is the
    next one, so the two timestamps can differ within a single search. *)
Theorem snapshot_agrees_but_for_timestamp :
  (forall payload (w : World) resp w',
      PyStr.nonempty (PyStr.strip (SearchRequest.company payload)) = true ->
      run_search payload w = (Ok resp, w') ->
      exists snap rest,
        db_calls w' = db_calls w ++ DbWrite "insight" (PDict snap) :: rest
        /\ Py.lookup "company" snap = Some (InsightResponse.company resp)
        /\ Py.lookup "summary" snap = Some (InsightResponse.summary resp)
        /\ Py.lookup "financials" snap = Some (InsightResponse.financials resp)
        /\ Py.lookup "market_trends" snap = Some (InsightResponse.market_trends resp)
        /\ Py.lookup "competitors" snap = Some (InsightResponse.competitors resp)
        /\ Py.lookup "pricing" snap = Some (InsightResponse.pricing resp)
        /\ Py.lookup "projections" snap = Some (InsightResponse.projections resp)
        /\ Py.lookup "prices" snap = None
        /\ Py.lookup "last_refreshed" snap
           = Some (PDatetime (clock w (clock_reads w)))
        /\ InsightResponse.last_refreshed resp
           = PDatetime (clock w (S (clock_reads w))))
  /\ (exists payload (w : World) resp w' snap rest,
        run_search payload w = (Ok resp, w')
        /\ db_calls w' = db_calls w ++ DbWrite "insight" (PDict snap) :: rest
        /\ Py.lookup "last_refreshed" snap
           <> Some (InsightResponse.last_refreshed resp)).
Proof.
  assert (Hall : forall payload (w : World) resp w',
      PyStr.nonempty (PyStr.strip (SearchRequest.company payload)) = true ->
      run_search payload w = (Ok resp, w') ->
      exists snap rest,
        db_calls w' = db_calls w ++ DbWrite "insight" (PDict snap) :: rest
        /\ Py.lookup "company" snap = Some (InsightResponse.company resp)
        /\ Py.lookup "summary" snap = Some (InsightResponse.summary resp)
        /\ Py.lookup "financials" snap = Some (InsightResponse.financials resp)
        /\ Py.lookup "market_trends" snap = Some (InsightResponse.market_trends resp)
        /\ Py.lookup "competitors" snap = Some (InsightResponse.competitors resp)
        /\ Py.lookup "pricing" snap = Some (InsightResponse.pricing resp)
        /\ Py.lookup "projections" snap = Some (InsightResponse.projections resp)
        /\ Py.lookup "prices" snap = None
        /\ Py.lookup "last_refreshed" snap
           = Some (PDatetime (clock w (clock_reads w)))
        /\ InsightResponse.last_refreshed resp
           = PDatetime (clock w (S (clock_reads w)))).
  { intros payload w resp w' Hc Hrun.
    set (c := PyStr.strip (SearchRequest.company payload)) in *.
    destruct (gather_total c payload w) as (s & n & p & u & G).
    rewrite (run_search_run payload w Hc _ _ _ _ G) in Hrun.
    inversion Hrun as [[Hresp Hw]]. clear Hrun.
    apply make_inv in Hresp. destruct Hresp as (t & Ht & -> & _).
    rewrite to_datetime_datetime in Ht. inversion Ht; subst t. clear Ht.
    rewrite persist_run. simpl snd.
    match goal with |- context [if ?b then _ else _] => destruct b end;
      (eexists; eexists; split; [simpl; reflexivity|]; repeat split). }
  split; [exact Hall|].
  destruct (gather_total "Acme" Demo.acme (Demo.world None Demo.never))
    as (s & n & p & u & G).
  pose proof (gather_summary "Acme" Demo.acme _ s n p _ G) as Hs.
  rewrite (fetch_wikipedia_summary_no_extract "Acme" (Demo.world None Demo.never))
    in Hs by constructor.
  inversion Hs; subst s.
  pose proof (run_search_ok Demo.acme (Demo.world None Demo.never) eq_refl
                _ _ _ _ G eq_refl) as Hrun.
  destruct (Hall Demo.acme (Demo.world None Demo.never) _ _ eq_refl Hrun)
    as (snap & rest & Hcalls & _ & _ & _ & _ & _ & _ & _ & _ & Hsnap & Hresp).
  eexists. eexists. eexists. eexists. exists snap, rest.
  split; [exact Hrun|]. split; [exact Hcalls|].
  rewrite Hsnap. simpl. discriminate.
Qed.

End SearchClaims.

(** ** The writes of a search *)

Section Writes.

Context {L : Libs} {V : Pydantic}.

(** C3, as amended.  A failing write never reaches the caller: the only
    exception a search raises is the validation error of its response.  The
    insight write comes first and stands under the outer guard only: when it
    fails, no other write is attempted and nothing is stored.  When it is
    accepted, the snapshot is stored, and a write per news item and the
    query write are all attempted, each under a guard of its own: a news
    item or the query is stored exactly on the fate of its own write, so
    a partial result (insight stored, news refused) is a normal outcome. *)
Theorem writes_best_effort_after_insight payload (w : World) :
  let c := PyStr.strip (SearchRequest.company payload) in
  PyStr.nonempty c = true ->
  exists summary news prices w1,
    gather c payload w = (Ok (summary, news, prices), w1)
    /\ (forall e, fst (run_search payload w) = Raise e -> e = ValidationError)
    /\ let w' := snd (run_search payload w) in
       let k := List.length (db_calls w) in
       let snap :=
         snapshot_of c summary news (PDatetime (clock w (clock_reads w))) in
       let qdoc := query_doc c (SearchRequest.locale payload) in
       (store_fault w k (DbWrite "insight" snap) = true ->
          db_calls w' = db_calls w ++ [DbWrite "insight" snap]
          /\ db_docs w' = db_docs w)
       /\ (store_fault w k (DbWrite "insight" snap) = false ->
            db_calls w'
            = db_calls w ++ DbWrite "insight" snap
                :: map (DbWrite "news") news ++ [DbWrite "companyquery" qdoc]
            /\ In ("insight", snap) (db_docs w')
            /\ (forall i n,
                  nth_error news i = Some n ->
                  store_fault w (S k + i) (DbWrite "news" n) = false ->
                  In ("news", n) (db_docs w'))
            /\ (store_fault w (S k + List.length news)
                  (DbWrite "companyquery" qdoc) = false ->
                In ("companyquery", qdoc) (db_docs w'))).
Proof.
  intros c Hc.
  destruct (gather_total c payload w) as (s & n & p & u & G).
  exists s, n, p, (fetched u w).
  split; [exact G|].
  split; [intros e; apply run_search_raises; exact Hc|].
  rewrite (run_search_world payload w s n p _ Hc G).
  fold c. cbv zeta. split; intros Hf; rewrite Hf; simpl.
  - split; reflexivity.
  - split; [reflexivity|]. split; [|split].
    + apply in_or_app. left. apply in_or_app. right.
      apply in_or_app. right. left. reflexivity.
    + intros i m Hn Hm. apply in_or_app. left. apply in_or_app. right.
      apply in_or_app. left.
      apply (stored_news_accepted (store_fault w) _ n i m Hn). exact Hm.
    + intros Hq. apply in_or_app. left. apply in_or_app. left.
      simpl in Hq. rewrite Hq. left. reflexivity.
Qed.

Lemma insight_of_doc_dict company d (w : World) :
  insight_of_doc company (PDict d) w
  = (InsightResponse.make
       (Py.get "company" (PStr company) d)
       (Py.get "summary" (PStr "") d)
       (Py.get "financials" (PDict []) d)
       (Py.get "market_trends" (PList []) d)
       (Py.get "competitors" (PList []) d)
       (Py.get "pricing" (PDict []) d)
       (Py.get "projections" (PDict []) d)
       (PList [])
       (Py.get "last_refreshed" (PDatetime (clock w (clock_reads w))) d),
     tick w).
Proof. reflexivity. Qed.




Lemma matches_dict flt doc : matches flt doc = true -> exists e, doc = PDict e.
Proof.
  destruct flt; simpl; try discriminate.
  destruct doc; try discriminate. intros _. eexists. reflexivity.
Qed.

Lemma filter_other_collection collection flt (docs : list (string * PyVal)) name :
  String.eqb name collection = false ->
  Forall (fun e => fst e = name) docs ->
  List.filter (in_collection collection flt) docs = [].
Proof.
  intros Hne H. induction H as [|[k v] r Hk _ IH]; simpl; [reflexivity|].
  simpl in Hk. subst k. unfold in_collection at 1. simpl. rewrite Hne. simpl.
  exact IH.
Qed.

Lemma snapshot_matches company summary news now :
  matches (PDict [("company", PStr company)])
          (snapshot_of company summary news now) = true.
Proof. simpl. rewrite String.eqb_refl. reflexivity. Qed.

Lemma filtered_are_dicts collection flt (docs : list (string * PyVal)) :
  Forall (fun d => exists e, d = PDict e)
         (map snd (List.filter (in_collection collection flt) docs)).
Proof.
  induction docs as [|[k v] r IH]; simpl; [constructor|].
  unfold in_collection at 1. simpl.
  destruct (String.eqb k collection); simpl; [|exact IH].
  destruct (matches flt v) eqn:E; simpl; [|exact IH].
  constructor; [apply (matches_dict flt v E) | exact IH].
Qed.

Lemma Forall_firstn {A} (P : A -> Prop) n (l : list A) :
  Forall P l -> Forall P (firstn n l).
Proof.
  intros H. revert n. induction H; intros [|n]; simpl; constructor; auto.
Qed.


End Writes.


(** ** Properties of the fetch helpers *)

Section FetcherClaims.

Context {L : Libs}.

(** C5.  The news fetcher returns all or nothing.  When the body does not
    parse (a single malformed item is enough, the document is parsed as a
    whole), the result is the empty list.  Otherwise the result is empty
    or holds the dict of every one of the items selected by [limit]: an
    error never leaves a part of the items behind. *)
Theorem news_fetch_all_or_nothing company locale limit (w : World) :
  (forall r,
      http_reply w (List.length (http_log w)) (rss_url company locale) = Some r ->
      fromstring (text r) = None ->
      fetch_google_news_rss company locale limit w
      = (Ok [], fetched [rss_url company locale] w))
  /\ (fst (fetch_google_news_rss company locale limit w) = Ok []
      \/ exists r root,
           http_reply w (List.length (http_log w)) (rss_url company locale) = Some r
           /\ fromstring (text r) = Some root
           /\ fst (fetch_google_news_rss company locale limit w)
              = Ok (map (news_item company)
                      (PySlice.upto limit (ET.findall_descendants "item" root)))).
Proof.
  split.
  - intros r Hr Hx.
    destruct (fetch_google_news_rss_total company locale limit w) as [items E].
    pose proof (fetch_google_news_rss_result company locale limit w) as Hres.
    rewrite E in Hres. simpl in Hres. rewrite Hr, Hx in Hres.
    rewrite E. inversion Hres as [Hi]. f_equal. f_equal.
    destruct ((400 <=? status_code r) && (status_code r <? 600))%Z; reflexivity.
  - rewrite fetch_google_news_rss_result.
    destruct (http_reply w _ _) as [r|]; [|left; reflexivity].
    destruct ((400 <=? status_code r) && (status_code r <? 600))%Z;
      [left; reflexivity|].
    destruct (fromstring (text r)) as [root|] eqn:Hx; [|left; reflexivity].
    right. exists r, root. repeat split. exact Hx.
Qed.

(** C10.  An item without a title or link child gets the empty string for
    that field, without pubDate an empty published_at, without
    description the summary None, without source the name "Google News";
    and the item is in the result all the same: the fetch returns one dict
    for each item selected by [limit]. *)
Theorem missing_children_default company (item : Element) :
  (exists entries,
      news_item company item = PDict entries
      /\ (ET.find "title" item = None ->
          Py.lookup "title" entries = Some (PStr ""))
      /\ (ET.find "link" item = None ->
          Py.lookup "url" entries = Some (PStr ""))
      /\ (ET.find "pubDate" item = None ->
          Py.lookup "published_at" entries = Some (PStr ""))
      /\ (ET.find "description" item = None ->
          Py.lookup "summary" entries = Some PNone)
      /\ (ET.find "source" item = None ->
          Py.lookup "source" entries = Some (PStr "Google News")))
  /\ (forall locale limit (w : World) r root,
        http_reply w (List.length (http_log w)) (rss_url company locale) = Some r ->
        (status_code r < 400 \/ 600 <= status_code r)%Z ->
        fromstring (text r) = Some root ->
        In item (PySlice.upto limit (ET.findall_descendants "item" root)) ->
        exists items,
          fst (fetch_google_news_rss company locale limit w) = Ok items
          /\ In (news_item company item) items
          /\ List.length items
             = List.length (PySlice.upto limit (ET.findall_descendants "item" root))).
Proof.
  split.
  - eexists. split; [reflexivity|].
    unfold child_text. simpl.
    repeat split; intros H; rewrite H; reflexivity.
  - intros locale limit w r root Hr Hs Hx Hin.
    rewrite fetch_google_news_rss_result, Hr, Hx.
    replace ((400 <=? status_code r) && (status_code r <? 600))%Z with false
      by (symmetry; apply andb_false_iff;
          destruct Hs; [left; apply Z.leb_gt | right; apply Z.ltb_ge]; lia).
    eexists. split; [reflexivity|].
    split; [apply in_map; exact Hin | apply length_map].
Qed.









(** C7.  The price fetcher never raises: for every ticker, limit and world
    it returns a list.  Without a ticker (None or empty) it returns the
    empty list at once and the world is untouched, so no request is made.
    It returns the empty list too when the status is not 200, the body is
    empty, the body starts with "<!DOCTYPE", or the request fails. *)
Theorem price_fetch_never_raises ticker limit (w : World) :
  (exists rows w', fetch_stooq_prices ticker limit w = (Ok rows, w'))
  /\ (ticker = None \/ ticker = Some "" ->
      fetch_stooq_prices ticker limit w = (Ok [], w))
  /\ (forall t r,
        ticker = Some t ->
        http_reply w (List.length (http_log w)) (stooq_url t) = Some r ->
        status_code r <> 200%Z \/ text r = ""
        \/ PyStr.startswith "<!DOCTYPE" (text r) = true ->
        fst (fetch_stooq_prices ticker limit w) = Ok [])
  /\ (forall t,
        ticker = Some t ->
        http_reply w (List.length (http_log w)) (stooq_url t) = None ->
        fst (fetch_stooq_prices ticker limit w) = Ok []).
Proof.
  split; [|split; [|split]].
  - destruct (fetch_stooq_prices_total ticker limit w) as (rows & urls & E).
    exists rows, (fetched urls w). exact E.
  - intros [-> | ->]; reflexivity.
  - intros t r -> Hr Hbad. unfold fetch_stooq_prices.
    destruct (PyStr.nonempty t); simpl; [|reflexivity].
    run_py. rewrite Hr.
    assert (Hc : no_csv r = true).
    { unfold no_csv. destruct Hbad as [H | [H | H]].
      - apply Z.eqb_neq in H. rewrite H. reflexivity.
      - rewrite H. destruct (status_code r =? 200)%Z; reflexivity.
      - rewrite H. destruct (status_code r =? 200)%Z;
          destruct (PyStr.nonempty (text r)); reflexivity. }
    rewrite Hc. reflexivity.
  - intros t -> Hr. unfold fetch_stooq_prices.
    destruct (PyStr.nonempty t); simpl; [|reflexivity].
    run_py. rewrite Hr. reflexivity.
Qed.

End FetcherClaims.

(** ** The properties on concrete worlds *)

Lemma search_ignores_persistence_failure_witness :
  exists resp,
    fst (@run_search Demo.libs Demo.pydantic Demo.acme
           (with_store_fault Demo.always (Demo.world (Some Demo.wiki_ok) Demo.never)))
    = Ok resp
    /\ fst (@run_search Demo.libs Demo.pydantic Demo.acme
              (with_store_fault (fun _ _ => false)
                 (Demo.world (Some Demo.wiki_ok) Demo.never)))
       = Ok resp
    /\ InsightResponse.summary resp = PStr "Acme makes anvils.".
Proof.
  destruct (@search_ignores_persistence_failure Demo.libs Demo.pydantic Demo.acme
              (Demo.world (Some Demo.wiki_ok) Demo.never) Demo.always eq_refl)
    as (Heq & _ & _ & _).
  destruct (fst (@run_search Demo.libs Demo.pydantic Demo.acme
                   (with_store_fault (fun _ _ => false)
                      (Demo.world (Some Demo.wiki_ok) Demo.never))))
    as [resp|e] eqn:E.
  - exists resp. split; [exact Heq|]. split; [reflexivity|].
    vm_compute in E. inversion E. reflexivity.
  - vm_compute in E. discriminate E.
Defined.

Lemma blank_company_rejected_witness :
  @run_search Demo.libs Demo.pydantic Demo.blank
    (Demo.world (Some Demo.wiki_ok) Demo.never)
  = (Raise (HTTPException 400 "Company is required"),
     Demo.world (Some Demo.wiki_ok) Demo.never)
  /\ http_log (snd (@run_search Demo.libs Demo.pydantic Demo.blank
                      (Demo.world (Some Demo.wiki_ok) Demo.never))) = [].
Proof.
  destruct (@blank_company_rejected Demo.libs Demo.pydantic Demo.blank
              (Demo.world (Some Demo.wiki_ok) Demo.never) (or_intror eq_refl))
    as (H1 & _ & H3).
  split; [exact H1 | exact H3].
Defined.

(** C3, as stated, fails.  In the world whose store refuses its first call
    only, the search for Acme fetches two news items, and after the refused
    insight write it makes no other call: the news writes and the query
    write, which the store would have accepted, are never attempted. *)
Lemma insight_failure_stops_writes :
  ~ @every_write_attempted Demo.libs Demo.pydantic Demo.acme
      (Demo.world (Some Demo.wiki_ok) Demo.first_only).
Proof.
  intros H. unfold every_write_attempted in H.
  destruct (@gather_total Demo.libs "Acme" Demo.acme
              (Demo.world (Some Demo.wiki_ok) Demo.first_only))
    as (s & n & p & u & G).
  destruct (H s n p _ G) as (_ & _ & Hq).
  vm_compute in Hq. destruct Hq as [Hq | []]. discriminate Hq.
Qed.

Lemma writes_best_effort_after_insight_witness :
  List.length
    (db_calls (snd (@run_search Demo.libs Demo.pydantic Demo.acme
                      (Demo.world (Some Demo.wiki_ok) Demo.first_only)))) = 1%nat
  /\ db_docs (snd (@run_search Demo.libs Demo.pydantic Demo.acme
                     (Demo.world (Some Demo.wiki_ok) Demo.first_only))) = [].
Proof.
  destruct (@writes_best_effort_after_insight Demo.libs Demo.pydantic Demo.acme
              (Demo.world (Some Demo.wiki_ok) Demo.first_only) eq_refl)
    as (s & n & p & w1 & G & _ & Hfail & _).
  destruct (Hfail eq_refl) as (Hcalls & Hdocs).
  rewrite Hcalls, Hdocs. split; reflexivity.
Defined.



Lemma news_fetch_all_or_nothing_witness :
  @fetch_google_news_rss Demo.libs "Acme" None 8 Demo.broken_feed_world
  = (Ok [], fetched [rss_url "Acme" None] Demo.broken_feed_world).
Proof.
  exact (proj1 (@news_fetch_all_or_nothing Demo.libs "Acme" None 8
                  Demo.broken_feed_world)
           (mkResponse 200 Demo.broken_feed None) eq_refl eq_refl).
Defined.


Lemma price_fetch_never_raises_witness :
  @fetch_stooq_prices Demo.libs None 60 (Demo.world (Some Demo.wiki_ok) Demo.never)
  = (Ok [], Demo.world (Some Demo.wiki_ok) Demo.never)
  /\ fst (@fetch_stooq_prices Demo.libs (Some "ACME") 60 Demo.not_found_world) = Ok [].
Proof.
  split.
  - apply (@price_fetch_never_raises Demo.libs None 60
             (Demo.world (Some Demo.wiki_ok) Demo.never)).
    left. reflexivity.
  - apply (proj2 (proj2 (@price_fetch_never_raises Demo.libs (Some "ACME") 60
                           Demo.not_found_world)))
      with (t := "ACME") (r := Demo.not_found).
    + reflexivity.
    + reflexivity.
    + left. discriminate.
Defined.

Lemma summary_defaults_when_fetch_empty_witness :
  exists resp w',
    @run_search Demo.libs Demo.pydantic Demo.acme
      (Demo.world (Some Demo.wiki_500) Demo.never)
    = (Ok resp, w')
    /\ InsightResponse.summary resp = PStr "No summary available for Acme.".
Proof.
  exact (@summary_defaults_when_fetch_empty Demo.libs Demo.pydantic Demo.acme
           (Demo.world (Some Demo.wiki_500) Demo.never) eq_refl
           (or_intror (ne_status Demo.wiki_500 ltac:(discriminate)))).
Defined.

Lemma snapshot_agrees_but_for_timestamp_witness :
  exists resp w' snap rest,
    @run_search Demo.libs Demo.pydantic Demo.acme
      (Demo.world (Some Demo.wiki_ok) Demo.never)
    = (Ok resp, w')
    /\ db_calls w' = DbWrite "insight" (PDict snap) :: rest
    /\ Py.lookup "last_refreshed" snap = Some (PDatetime 1700000000)
    /\ InsightResponse.last_refreshed resp = PDatetime 1700000001.
Proof.
  destruct (@gather_total Demo.libs "Acme" Demo.acme
              (Demo.world (Some Demo.wiki_ok) Demo.never))
    as (s & n & p & u & G).
  pose proof (@gather_summary Demo.libs "Acme" Demo.acme _ s n p _ G) as Hs.
  vm_compute in Hs. inversion Hs; subst s.
  pose proof (@run_search_ok Demo.libs Demo.pydantic Demo.acme
                (Demo.world (Some Demo.wiki_ok) Demo.never) eq_refl
                _ _ _ _ G eq_refl) as Hrun.
  destruct (proj1 (@snapshot_agrees_but_for_timestamp Demo.libs Demo.pydantic)
              Demo.acme (Demo.world (Some Demo.wiki_ok) Demo.never) _ _
              eq_refl Hrun)
    as (snap & rest & Hcalls & _ & _ & _ & _ & _ & _ & _ & _ & Hsnap & Hresp).
  eexists. eexists. exists snap, rest.
  split; [exact Hrun|]. repeat split; assumption.
Defined.

Lemma missing_children_default_witness :
  (exists entries,
      news_item "Acme" Demo.bare_item = PDict entries
      /\ Py.lookup "title" entries = Some (PStr "")
      /\ Py.lookup "summary" entries = Some PNone
      /\ Py.lookup "source" entries = Some (PStr "Wire"))
  /\ exists items,
       fst (@fetch_google_news_rss Demo.libs "Acme" None 8
              (Demo.world (Some Demo.wiki_ok) Demo.never)) = Ok items
       /\ In (news_item "Acme" Demo.bare_item) items.
Proof.
  destruct (@missing_children_default Demo.libs "Acme" Demo.bare_item)
    as ((entries & He & Ht & _ & _ & Hd & _) & Hin).
  split.
  - exists entries. split; [exact He|]. split; [exact (Ht eq_refl)|].
    split; [exact (Hd eq_refl)|].
    vm_compute in He. inversion He. reflexivity.
  - destruct (Hin None 8%Z (Demo.world (Some Demo.wiki_ok) Demo.never)
                (mkResponse 200 Demo.feed None) Demo.feed_tree
                eq_refl (or_introl eq_refl) eq_refl
                (or_intror (or_introl eq_refl)))
      as (items & Hrun & Hitem & _).
    exists items. split; assumption.
Defined.

(** The store refuses the news writes only: the snapshot and the query are
    stored all the same, all four writes having been attempted. *)
Example partial_write_is_kept :
  map fst (db_docs (snd (@run_search Demo.libs Demo.pydantic Demo.acme
                           (Demo.world (Some Demo.wiki_ok) Demo.news_only))))
  = ["companyquery"; "insight"]
  /\ List.length (db_calls (snd (@run_search Demo.libs Demo.pydantic Demo.acme
                                   (Demo.world (Some Demo.wiki_ok) Demo.news_only))))
     = 4%nat.
Proof. split; vm_compute; reflexivity. Qed.

Example media_coverage_counts_news :
  match fst (@run_search Demo.libs Demo.pydantic Demo.acme
               (Demo.world (Some Demo.wiki_ok) Demo.never)) with
  | Ok resp =>
      InsightResponse.market_trends resp
      = PList [PStr "Media coverage: 2 recent articles discovered";
               PStr "Monitoring public sources for mentions and sentiment"]
  | Raise _ => False
  end.
Proof. vm_compute. reflexivity. Qed.

Example summary_without_extract_field :
  fst (fetch_wikipedia_summary "Acme"
         (Demo.world (Some Demo.wiki_no_extract) Demo.never)) = Ok (PStr "").
Proof. vm_compute. reflexivity. Qed.

Example search_makes_three_requests :
  http_log (snd (@run_search Demo.libs Demo.pydantic Demo.acme
                   (Demo.world (Some Demo.wiki_ok) Demo.never)))
  = [summary_url "Acme"; rss_url "Acme" None; stooq_url "ACME"].
Proof. vm_compute. reflexivity. Qed.

(** A number for an extract: the snapshot is written, then the response is
    refused and the search answers 500. *)
Example number_extract_fails_after_writing :
  fst (@run_search Demo.libs Demo.pydantic Demo.acme Demo.number_first_world)
  = Raise ValidationError
  /\ http_status
       (fst (@run_search Demo.libs Demo.pydantic Demo.acme Demo.number_first_world))
     = 500%Z
  /\ map fst (db_docs (snd (@run_search Demo.libs Demo.pydantic Demo.acme
                              Demo.number_first_world)))
     = ["companyquery"; "news"; "news"; "insight"].
Proof. repeat split; vm_compute; reflexivity. Qed.

(** * Further properties of the routes and the fetch helpers *)

(** ** The news route *)

Lemma lookup_set_item_same k v d : Py.lookup k (set_item k v d) = Some v.
Proof.
  induction d as [|[k' v'] r IH]; simpl.
  - rewrite String.eqb_refl. reflexivity.
  - destruct (String.eqb k k') eqn:E; simpl.
    + rewrite String.eqb_refl. reflexivity.
    + rewrite E. exact IH.
Qed.

Lemma lookup_set_item_other k k' v d :
  k' <> k -> Py.lookup k' (set_item k v d) = Py.lookup k' d.
Proof.
  intros Hne. apply String.eqb_neq in Hne.
  induction d as [|[k0 v0] r IH]; simpl.
  - rewrite Hne. reflexivity.
  - destruct (String.eqb k k0) eqn:E; simpl.
    + apply String.eqb_eq in E. subst k0. rewrite Hne. reflexivity.
    + destruct (String.eqb k' k0); [reflexivity | exact IH].
Qed.

Lemma set_item_keys k v d :
  Py.lookup k d <> None -> map fst (set_item k v d) = map fst d.
Proof.
  induction d as [|[k0 v0] r IH]; simpl; [congruence|].
  destruct (String.eqb k k0) eqn:E; simpl.
  - apply String.eqb_eq in E. subst k0. reflexivity.
  - intros H. rewrite (IH H). reflexivity.
Qed.

Section News.

Context {L : Libs} {D : DatetimeLib}.

Lemma normalize_published_dict e :
  exists d', normalize_published (PDict e) = Ok d'
             /\ published_as_text (PDict e) d'.
Proof.
  unfold normalize_published, Py.get.
  destruct (Py.lookup "published_at" e) as [v|] eqn:E.
  - destruct v;
      try (exists (PDict e); split; [reflexivity|];
           exists e, e; rewrite E; repeat split; reflexivity).
    eexists. split; [reflexivity|].
    exists e, (set_item "published_at" (PStr (isoformat t)) e).
    split; [reflexivity|]. split; [reflexivity|].
    split; [apply set_item_keys; congruence|].
    split; [intros k Hk; apply lookup_set_item_other; exact Hk|].
    rewrite E. apply lookup_set_item_same.
  - exists (PDict e). split; [reflexivity|].
    exists e, e. rewrite E. repeat split; reflexivity.
Qed.

Lemma normalize_all_dicts docs :
  Forall (fun d => exists e, d = PDict e) docs ->
  exists docs', normalize_all docs = Ok docs'
                /\ Forall2 published_as_text docs docs'.
Proof.
  intros H. induction H as [|d r [e ->] _ (r' & Hr & Hall)].
  - exists []. split; [reflexivity | constructor].
  - destruct (normalize_published_dict e) as (d' & Hd & Hp).
    exists (d' :: r'). cbn [normalize_all]. rewrite Hd, Hr.
    split; [reflexivity | constructor; assumption].
Qed.

(** What the gateway answers is a list of dicts. *)
Lemma get_documents_dicts collection flt limit (w : World) docs w1 :
  get_documents collection flt limit w = (Ok docs, w1) ->
  Forall (fun d => exists e, d = PDict e) docs.
Proof.
  unfold get_documents. destruct (store_fault w _ _); [discriminate|].
  intros H. inversion H; subst. apply Forall_firstn. apply filtered_are_dicts.
Qed.

Lemma get_documents_outcome collection flt limit (w : World) :
  snd (get_documents collection flt limit w)
  = log_db (DbRead collection flt limit) w.
Proof. unfold get_documents. destruct (store_fault w _ _); reflexivity. Qed.

(** The news route on a store that answers with documents. *)
Lemma get_news_hit company limit (w : World) docs docs' w1 :
  get_documents "news" (by_company company) limit w = (Ok docs, w1) ->
  docs <> [] ->
  normalize_all docs = Ok docs' ->
  get_news company limit w = (Ok docs', w1).
Proof.
  intros G Hne Hn.
  unfold get_news. unfold bind at 1. unfold try_except. unfold bind at 1.
  change (PDict [("company", PStr company)]) with (by_company company).
  rewrite G. destruct docs as [|d r]; [congruence|].
  unfold bind, lift. rewrite Hn. reflexivity.
Qed.

(** The news route on a store that answers with nothing or fails. *)
Lemma get_news_falls_back_run company limit (w : World) :
  fst (get_documents "news" (by_company company) limit w) = Ok []
  \/ (exists e, fst (get_documents "news" (by_company company) limit w) = Raise e) ->
  get_news company limit w
  = fetch_google_news_rss company None limit
      (log_db (DbRead "news" (by_company company) limit) w).
Proof.
  intros H. rewrite <- get_documents_outcome.
  unfold get_news. unfold bind at 1. unfold try_except. unfold bind at 1.
  change (PDict [("company", PStr company)]) with (by_company company).
  destruct (get_documents "news" (by_company company) limit w) as [[docs|e] w1].
  - destruct H as [H | [e H]]; simpl in H; [|discriminate].
    inversion H; subst docs. reflexivity.
  - reflexivity.
Qed.

(** The news route never raises: whether the store answers, answers
    with nothing or fails, and whatever the upstream does, it returns a
    list. *)
Theorem get_news_never_raises company limit (w : World) :
  exists items w', get_news company limit w = (Ok items, w').
Proof.
  unfold get_news. unfold bind at 1. unfold try_except. unfold bind at 1.
  destruct (get_documents "news" (PDict [("company", PStr company)]) limit w)
    as [[docs|e] w1] eqn:G.
  - pose proof (get_documents_dicts _ _ _ _ _ _ G) as Hd.
    destruct docs as [|d r].
    + unfold ret at 1.
      destruct (fetch_google_news_rss_total company None limit w1) as [items E].
      rewrite E. eexists. eexists. reflexivity.
    + destruct (normalize_all_dicts (d :: r) Hd) as (docs' & Hn & _).
      unfold bind, lift. rewrite Hn. unfold ret. eexists. eexists. reflexivity.
  - unfold ret at 1.
    destruct (fetch_google_news_rss_total company None limit w1) as [items E].
    rewrite E. eexists. eexists. reflexivity.
Qed.

(** X1.  When the store answers the read with at least one document, the
    news route returns these documents, in the same order and each with a
    datetime [published_at] turned into its ISO text and nothing else
    changed; the world is the one the read left, so no upstream request is
    made and nothing is written. *)
Theorem get_news_serves_stored company limit (w : World) docs w1 :
  get_documents "news" (by_company company) limit w = (Ok docs, w1) ->
  docs <> [] ->
  exists items,
    get_news company limit w = (Ok items, w1)
    /\ Forall2 published_as_text docs items
    /\ http_log w1 = http_log w
    /\ db_docs w1 = db_docs w.
Proof.
  intros G Hne.
  pose proof (get_documents_dicts _ _ _ _ _ _ G) as Hd.
  pose proof (get_documents_outcome "news" (by_company company) limit w) as Hw.
  rewrite G in Hw. simpl in Hw. subst w1.
  destruct (normalize_all_dicts docs Hd) as (docs' & Hn & Hall).
  exists docs'. split; [|split; [exact Hall | split; reflexivity]].
  unfold get_news. unfold bind at 1. unfold try_except. unfold bind at 1.
  change (PDict [("company", PStr company)]) with (by_company company).
  rewrite G. destruct docs as [|d r]; [congruence|].
  unfold bind, lift. rewrite Hn. reflexivity.
Qed.

(** X2.  When the store answers with no document, or the read raises, the
    news route returns exactly what the live feed fetcher returns for the
    company with the default locale and the same limit, run in the world the
    read left. *)
Theorem get_news_falls_back company limit (w : World) :
  fst (get_documents "news" (by_company company) limit w) = Ok []
  \/ (exists e, fst (get_documents "news" (by_company company) limit w) = Raise e) ->
  get_news company limit w
  = fetch_google_news_rss company None limit
      (log_db (DbRead "news" (by_company company) limit) w).
Proof. exact (get_news_falls_back_run company limit w). Qed.

End News.

(** ** More on the search route *)

Lemma rstrip_keeps_head c r :
  PyStr.isspace c = false -> exists r', PyStr.rstrip (String c r) = String c r'.
Proof.
  intros H. simpl. destruct (PyStr.rstrip r); [rewrite H|]; eexists; reflexivity.
Qed.

Lemma rstrip_idempotent s : PyStr.rstrip (PyStr.rstrip s) = PyStr.rstrip s.
Proof.
  induction s as [|c r IH]; [reflexivity|].
  simpl. destruct (PyStr.rstrip r) as [|c' r'] eqn:E.
  - destruct (PyStr.isspace c) eqn:Ec; [reflexivity|].
    simpl. rewrite Ec. reflexivity.
  - change (PyStr.rstrip (String c (String c' r')))
      with (match PyStr.rstrip (String c' r') with
            | EmptyString =>
                if PyStr.isspace c then EmptyString else String c EmptyString
            | String a b => String c (String a b)
            end).
    rewrite IH. reflexivity.
Qed.

Lemma lstrip_fixed s :
  match s with
  | EmptyString => True
  | String c _ => PyStr.isspace c = false
  end ->
  PyStr.lstrip s = s.
Proof. destruct s as [|c r]; simpl; [reflexivity|]. intros ->. reflexivity. Qed.

(** Trimming a trimmed string changes nothing. *)
Lemma strip_idempotent s : PyStr.strip (PyStr.strip s) = PyStr.strip s.
Proof.
  unfold PyStr.strip.
  pose proof (lstrip_head s) as Hh.
  destruct (PyStr.lstrip s) as [|c r] eqn:E; [reflexivity|].
  destruct (rstrip_keeps_head c r Hh) as [r' Hr].
  rewrite (lstrip_fixed (PyStr.rstrip (String c r)))
    by (rewrite Hr; exact Hh).
  apply rstrip_idempotent.
Qed.

Section SearchMore.

Context {L : Libs} {V : Pydantic}.

(** X3.  Whether or not it returns its record, a search makes the summary
    request, then the feed request, then the price request when a non-empty
    ticker was given, and no other; it reads the clock exactly twice. *)
Theorem search_requests_in_order payload (w : World) :
  let c := PyStr.strip (SearchRequest.company payload) in
  PyStr.nonempty c = true ->
  http_log (snd (run_search payload w))
  = http_log w
    ++ [summary_url c; rss_url c (SearchRequest.locale payload)]
    ++ stooq_requests (SearchRequest.ticker payload)
  /\ clock_reads (snd (run_search payload w)) = S (S (clock_reads w)).
Proof.
  intros c Hc.
  destruct (gather_total c payload w) as (s & n & p & u & G).
  rewrite (run_search_world payload w s n p _ Hc G).
  destruct (gather_components c payload w _ _ _ _ G) as (_ & _ & _ & Hu).
  rewrite Hu. cbv zeta.
  destruct (store_fault w _ _); split; reflexivity.
Qed.

(** X4.  Whether or not it returns its record, a search only ever writes to
    the store: it makes between one and ten calls, all of them writes, and
    the documents the store held before are all still there, in place,
    under whatever was added. *)
Theorem search_only_appends payload (w : World) :
  let c := PyStr.strip (SearchRequest.company payload) in
  PyStr.nonempty c = true ->
  exists calls added,
    db_calls (snd (run_search payload w)) = db_calls w ++ calls
    /\ forallb is_write calls = true
    /\ (1 <= List.length calls <= 10)%nat
    /\ db_docs (snd (run_search payload w)) = added ++ db_docs w.
Proof.
  intros c Hc.
  destruct (gather_total c payload w) as (s & n & p & u & G).
  rewrite (run_search_world payload w s n p _ Hc G). cbv zeta.
  destruct (gather_components c payload w _ _ _ _ G) as (_ & Hn & _ & _).
  apply news_length in Hn; [|lia].
  change (Z.to_nat 8) with 8%nat in Hn.
  destruct (store_fault w _ _).
  - exists [DbWrite "insight"
        (snapshot_of c s n (PDatetime (clock w (clock_reads w))))], [].
    simpl. repeat split; lia.
  - eexists. eexists.
    split; [reflexivity|].
    split.
    { simpl. rewrite forallb_app. simpl. rewrite andb_true_r.
      clear. induction n; simpl; auto. }
    split; [|reflexivity].
    simpl. rewrite length_app, length_map. simpl. lia.
Qed.

End SearchMore.

Section SearchOutcome.

Context {L : Libs} {V : Pydantic}.

(** A search whose insight write is accepted leaves the fault oracle alone
    and puts exactly one more snapshot of the company into the store,
    whatever is there already and whether or not its response validates. *)
Lemma search_adds_one_snapshot payload (w : World) :
  let c := PyStr.strip (SearchRequest.company payload) in
  PyStr.nonempty c = true ->
  (forall doc,
      store_fault w (List.length (db_calls w)) (DbWrite "insight" doc) = false) ->
  store_fault (snd (run_search payload w)) = store_fault w
  /\ List.length (List.filter (in_collection "insight" (by_company c))
                    (db_docs (snd (run_search payload w))))
     = S (List.length
            (List.filter (in_collection "insight" (by_company c)) (db_docs w))).
Proof.
  intros c Hc Hw.
  destruct (gather_total c payload w) as (s & n & p & u & G).
  rewrite (run_search_world payload w s n p _ Hc G). cbv zeta. rewrite Hw.
  split; [reflexivity|].
  change (db_docs (tick (written ?a ?b (tick (fetched u w))))) with (b ++ db_docs w).
  simpl db_docs.
  rewrite !filter_app.
  match goal with
  | |- context [List.filter ?f (if ?b then [] else [?x])] =>
      replace (List.filter f (if b then [] else [x])) with (@nil (string * PyVal))
        by (destruct b; reflexivity)
  end.
  rewrite (filter_other_collection "insight" _ _ "news" eq_refl
             (stored_news_collection _ _ _)).
  simpl List.filter at 1. unfold in_collection at 1. simpl fst. simpl snd.
  unfold by_company at 1. rewrite snapshot_matches. reflexivity.
Qed.

(** X5.  There is no upsert: searching twice for the same company, with the
    insight writes accepted, leaves two more snapshots of it in the store
    than before. *)
Theorem repeated_search_duplicates payload (w : World) :
  let c := PyStr.strip (SearchRequest.company payload) in
  PyStr.nonempty c = true ->
  (forall k doc, store_fault w k (DbWrite "insight" doc) = false) ->
  List.length
    (List.filter (in_collection "insight" (by_company c))
       (db_docs (snd (run_search payload (snd (run_search payload w))))))
  = S (S (List.length
            (List.filter (in_collection "insight" (by_company c)) (db_docs w)))).
Proof.
  intros c Hc Hw.
  destruct (search_adds_one_snapshot payload w Hc (fun doc => Hw _ doc))
    as (Hf & Hn1).
  set (w1 := snd (run_search payload w)) in *.
  assert (Hw1 : forall doc,
             store_fault w1 (List.length (db_calls w1)) (DbWrite "insight" doc) = false)
    by (intros doc; rewrite Hf; apply Hw).
  destruct (search_adds_one_snapshot payload w1 Hc Hw1) as (_ & Hn2).
  fold c in Hn1, Hn2. rewrite Hn2, Hn1. reflexivity.
Qed.

(** X6.  Whitespace around the company is irrelevant: the search for a
    company and the search for its trimmed form are the same computation. *)
Theorem search_ignores_surrounding_whitespace company ticker locale (w : World) :
  run_search (SearchRequest.mk company ticker locale) w
  = run_search (SearchRequest.mk (PyStr.strip company) ticker locale) w.
Proof.
  unfold run_search. simpl. rewrite strip_idempotent. reflexivity.
Qed.

(** X7.  The search chooses for its summary what the encyclopedia fetch
    yielded when that is truthy, and the default sentence otherwise (for an
    empty string, but also for a null or otherwise falsy "extract").  When
    the chosen value is a string the search answers with it as the summary,
    which is then never empty; when it is not (a number, a list, an object)
    the response does not validate and the search raises, answering 500.
    In particular a 200 reply whose JSON object has a non-empty string
    "extract" makes that string the summary. *)
Theorem summary_is_extract_or_default payload (w : World) :
  let c := PyStr.strip (SearchRequest.company payload) in
  PyStr.nonempty c = true ->
  exists v,
    fst (fetch_wikipedia_summary c w) = Ok v
    /\ (forall x,
          (if Py.truthy v then v
           else PStr ("No summary available for " ++ c ++ ".")%string) = PStr x ->
          x <> ""
          /\ exists resp w',
               run_search payload w = (Ok resp, w')
               /\ InsightResponse.summary resp = PStr x)
    /\ ((forall x,
           (if Py.truthy v then v
            else PStr ("No summary available for " ++ c ++ ".")%string) <> PStr x) ->
        fst (run_search payload w) = Raise ValidationError
        /\ http_status (fst (run_search payload w)) = 500%Z)
    /\ (forall r d x,
          http_reply w (List.length (http_log w)) (summary_url c) = Some r ->
          status_code r = 200%Z ->
          json r = Some (PDict d) ->
          Py.lookup "extract" d = Some (PStr x) ->
          x <> "" ->
          exists resp w',
            run_search payload w = (Ok resp, w')
            /\ InsightResponse.summary resp = PStr x).
Proof.
  intros c Hc.
  destruct (gather_total c payload w) as (v & n & p & u & G).
  pose proof (gather_summary c payload w v n p _ G) as Hv.
  exists v. split; [exact Hv|].
  assert (Hok : forall x,
             (if Py.truthy v then v
              else PStr ("No summary available for " ++ c ++ ".")%string) = PStr x ->
             exists resp w',
               run_search payload w = (Ok resp, w')
               /\ InsightResponse.summary resp = PStr x).
  { intros x Hx.
    assert (Hs : summary_or_default v c = PStr x) by exact Hx.
    assert (Hstr : InsightResponse.is_str (summary_or_default v c) = true)
      by (rewrite Hs; reflexivity).
    rewrite (run_search_ok payload w Hc _ _ _ _ G Hstr).
    eexists. eexists. split; [reflexivity | exact Hs]. }
  split; [|split].
  - intros x Hx. split; [|apply Hok; exact Hx].
    destruct (Py.truthy v) eqn:E.
    + subst v. intros ->. discriminate E.
    + inversion Hx. discriminate.
  - intros Hno.
    assert (Hs : InsightResponse.is_str (summary_or_default v c) = false).
    { unfold summary_or_default, Py.or_else.
      destruct (if Py.truthy v then v
                else PStr ("No summary available for " ++ c ++ ".")%string)
        eqn:E; try reflexivity.
      exfalso. apply (Hno s). reflexivity. }
    rewrite (run_search_invalid payload w Hc _ _ _ _ G Hs). split; reflexivity.
  - intros r d x Hr Hs Hj Hl Hne. apply Hok.
    unfold fetch_wikipedia_summary in Hv. run_py.
    rewrite Hr, Hs in Hv. simpl in Hv. rewrite Hj in Hv. simpl in Hv.
    unfold Py.get in Hv. rewrite Hl in Hv. inversion Hv; subst v.
    destruct x; [contradiction | reflexivity].
Qed.

(** X8.  In the record of a successful search the first market trend names
    the number of news items the feed fetch returned, in decimal, and that
    number is at most eight; the second is the fixed monitoring sentence. *)
Theorem market_trends_count_news payload (w : World) resp w' :
  let c := PyStr.strip (SearchRequest.company payload) in
  PyStr.nonempty c = true ->
  run_search payload w = (Ok resp, w') ->
  exists news,
    fst (fetch_google_news_rss c (SearchRequest.locale payload) 8
           (fetched [summary_url c] w)) = Ok news
    /\ (List.length news <= 8)%nat
    /\ InsightResponse.market_trends resp
       = PList [PStr ("Media coverage: " ++ PyStr.of_nat (List.length news)
                      ++ " recent articles discovered")%string;
                PStr "Monitoring public sources for mentions and sentiment"].
Proof.
  intros c Hc Hrun.
  destruct (gather_total c payload w) as (v & n & p & u & G).
  destruct (gather_components c payload w _ _ _ _ G) as (_ & Hn & _ & _).
  rewrite (run_search_run payload w Hc _ _ _ _ G) in Hrun.
  inversion Hrun as [[Hresp Hwfin]]. clear Hrun.
  apply make_inv in Hresp. destruct Hresp as (t & _ & -> & _).
  exists n. split; [exact Hn|]. split; [|reflexivity].
  apply news_length in Hn; [exact Hn | lia].
Qed.

End SearchOutcome.

(** ** The read-back routes *)

(** ** The read-back routes *)

Lemma ticked_zero (w : World) : ticked 0 w = w.
Proof. destruct w; reflexivity. Qed.

Lemma ticked_tick n (w : World) : ticked n (tick w) = ticked (S n) w.
Proof. unfold ticked, tick; simpl. f_equal. lia. Qed.

Lemma eqb_str_eq s v : Py.eqb (PStr s) v = true -> v = PStr s.
Proof.
  destruct v; simpl; try discriminate.
  intros H. apply String.eqb_eq in H. subst. reflexivity.
Qed.

Lemma matches_company company e :
  matches (by_company company) (PDict e) = true ->
  Py.lookup "company" e = Some (PStr company).
Proof.
  simpl. destruct (Py.lookup "company" e) as [v|]; [|discriminate].
  rewrite andb_true_r. intros H. apply eqb_str_eq in H. subst. reflexivity.
Qed.

Lemma Forall_filter_firstn {A} (f : A -> bool) n (l : list A) :
  Forall (fun x => f x = true) (firstn n (List.filter f l)).
Proof.
  apply Forall_firstn. apply Forall_forall. intros x Hx.
  apply filter_In in Hx. apply Hx.
Qed.

(** Every document the gateway answers with matches the filter. *)
Lemma get_documents_match collection flt limit (w : World) docs w1 :
  get_documents collection flt limit w = (Ok docs, w1) ->
  Forall (fun d => matches flt d = true) docs.
Proof.
  unfold get_documents. destruct (store_fault w _ _); [discriminate|].
  intros H. inversion H; subst. clear H.
  induction (db_docs w) as [|[k v] r IH] in limit |- *; simpl.
  - rewrite firstn_nil. constructor.
  - unfold in_collection at 1. simpl.
    destruct (String.eqb k collection); simpl; [|apply IH].
    destruct (matches flt v) eqn:E; simpl; [|apply IH].
    destruct (Z.to_nat limit) as [|n] eqn:En; simpl; [constructor|].
    constructor; [exact E|].
    specialize (IH (Z.of_nat n)). rewrite Nat2Z.id in IH. exact IH.
Qed.

Lemma get_documents_length collection flt limit (w : World) docs w1 :
  get_documents collection flt limit w = (Ok docs, w1) ->
  (List.length docs <= Z.to_nat limit)%nat.
Proof.
  unfold get_documents. destruct (store_fault w _ _); [discriminate|].
  intros H. inversion H; subst. rewrite length_firstn. lia.
Qed.

Section ReadBack.

Context {V : Pydantic}.

Lemma make_raises a b c d e f g h l x :
  InsightResponse.make a b c d e f g h l = Raise x -> x = ValidationError.
Proof.
  unfold InsightResponse.make.
  match goal with |- (if ?t then _ else _) = _ -> _ => destruct t end.
  - destruct (to_datetime l); [discriminate|]. intros H. inversion H. reflexivity.
  - intros H. inversion H. reflexivity.
Qed.

Lemma collect_cons {A B} (x : A) (r : list A) (f : A -> M B) acc (w : World) :
  collect (x :: r) f acc w
  = match f x w with
    | (Ok b, w') => collect r f (acc ++ [b]) w'
    | (Raise e, w') => (Raise e, w')
    end.
Proof. reflexivity. Qed.

(** The loop of [get_insights] over stored dicts touches the clock only, once
    per document it gets to; it either returns one record per document or
    stops at a document that does not validate. *)
Lemma collect_footprint company docs acc (w : World) :
  Forall (fun d => exists e, d = PDict e) docs ->
  exists n,
    snd (collect docs (insight_of_doc company) acc w) = ticked n w
    /\ (n <= List.length docs)%nat
    /\ (fst (collect docs (insight_of_doc company) acc w) = Raise ValidationError
        \/ exists results,
             fst (collect docs (insight_of_doc company) acc w) = Ok (acc ++ results)
             /\ List.length results = List.length docs
             /\ n = List.length docs).
Proof.
  intros H. revert acc w. induction H as [|d r [e ->] _ IH]; intros acc w.
  - exists 0%nat. simpl. rewrite ticked_zero. split; [reflexivity|].
    split; [lia|]. right. exists []. rewrite app_nil_r. repeat split.
  - rewrite !collect_cons, insight_of_doc_dict.
    destruct (InsightResponse.make _ _ _ _ _ _ _ _ _) as [x|x] eqn:E.
    + destruct (IH (acc ++ [x]) (tick w)) as (n & Hw & Hn & Hres).
      exists (S n). rewrite Hw, ticked_tick. split; [reflexivity|].
      split; [simpl; lia|].
      destruct Hres as [Hres | (results & Hres & Hlen & Hnl)].
      * left. exact Hres.
      * right. exists (x :: results). rewrite Hres, <- app_assoc. simpl.
        repeat split; congruence.
    + apply make_raises in E. subst x.
      exists 1%nat. simpl. split; [destruct w; reflexivity|].
      split; [lia|]. left. reflexivity.
Qed.

(** X9.  The insights route only reads: it makes exactly one call to the
    store, a read of the insight collection with the limit 3, writes nothing
    and requests nothing upstream.  It raises nothing but the validation
    error of a stored document; when it returns, it returns at most three
    records and has read the clock once per record; and when the read fails
    it returns the empty list. *)
Theorem get_insights_only_reads company (w : World) :
  db_calls (snd (get_insights company w))
  = db_calls w ++ [DbRead "insight" (by_company company) 3]
  /\ db_docs (snd (get_insights company w)) = db_docs w
  /\ http_log (snd (get_insights company w)) = http_log w
  /\ (fst (get_insights company w) = Raise ValidationError
      \/ exists results,
           fst (get_insights company w) = Ok results
           /\ (List.length results <= 3)%nat
           /\ clock_reads (snd (get_insights company w))
              = (List.length results + clock_reads w)%nat)
  /\ (store_fault w (List.length (db_calls w))
        (DbRead "insight" (by_company company) 3) = true ->
      fst (get_insights company w) = Ok []).
Proof.
  unfold get_insights, bind, try_except.
  change (PDict [("company", PStr company)]) with (by_company company).
  pose proof (get_documents_outcome "insight" (by_company company) 3 w) as Hw.
  destruct (get_documents "insight" (by_company company) 3 w) as [[docs|e] w1] eqn:G;
    simpl in Hw; subst w1.
  - pose proof (get_documents_dicts _ _ _ _ _ _ G) as Hd.
    pose proof (get_documents_length _ _ _ _ _ _ G) as Hl.
    change (Z.to_nat 3) with 3%nat in Hl.
    destruct (collect_footprint company docs []
                (log_db (DbRead "insight" (by_company company) 3) w) Hd)
      as (n & Hsnd & Hn & Hres).
    destruct (collect docs (insight_of_doc company) []
                (log_db (DbRead "insight" (by_company company) 3) w))
      as [res wf].
    simpl in Hsnd, Hres. subst wf. simpl.
    repeat split.
    + destruct Hres as [Hres | (results & Hres & Hlen & Hnl)].
      * left. exact Hres.
      * right. exists results. simpl in Hres. subst n.
        repeat split; try assumption; lia.
    + intros Hf. unfold get_documents in G. rewrite Hf in G. discriminate.
  - unfold ret. simpl. repeat split.
    right. exists []. repeat split; simpl; lia.
Qed.

End ReadBack.

(** ** From a search to the news route *)

Lemma stored_news_all_accepted fault k news :
  (forall i call, fault i call = false) ->
  stored_news fault k news = rev (map (pair "news") news).
Proof.
  intros H. revert k. induction news as [|n r IH]; intros k; simpl; [reflexivity|].
  rewrite IH, H. reflexivity.
Qed.

Lemma filter_all {A} (f : A -> bool) (l : list A) :
  Forall (fun x => f x = true) l -> List.filter f l = l.
Proof.
  intros H. induction H as [|x r Hx _ IH]; simpl; [reflexivity|].
  rewrite Hx, IH. reflexivity.
Qed.

Section SearchThenNews.

Context {L : Libs} {D : DatetimeLib} {V : Pydantic}.

(** Every item the feed fetcher returns is the dict of some element. *)
Lemma news_items_shape company locale limit (w : World) news :
  fst (fetch_google_news_rss company locale limit w) = Ok news ->
  Forall (fun n => exists item, n = news_item company item) news.
Proof.
  rewrite fetch_google_news_rss_result. intros H. inversion H as [Hn]. clear H.
  destruct (http_reply w _ _) as [r|]; [|constructor].
  destruct ((400 <=? status_code r) && (status_code r <? 600))%Z; [constructor|].
  destruct (fromstring (text r)); [|constructor].
  apply Forall_forall. intros n Hin. apply in_map_iff in Hin.
  destruct Hin as (item & <- & _). exists item. reflexivity.
Qed.

(** A fetched item has no datetime, so the news route leaves it as it is. *)
Lemma normalize_news_item company item :
  normalize_published (news_item company item) = Ok (news_item company item).
Proof.
  unfold normalize_published, news_item, Py.get. simpl.
  unfold child_text. destruct (ET.find "pubDate" item) as [el|]; [|reflexivity].
  destruct (ET.text el); reflexivity.
Qed.

Lemma normalize_all_news company news :
  Forall (fun n => exists item, n = news_item company item) news ->
  normalize_all news = Ok news.
Proof.
  intros H. induction H as [|n r [item ->] _ IH]; [reflexivity|].
  cbn [normalize_all]. rewrite normalize_news_item, IH. reflexivity.
Qed.

Lemma normalize_all_app a a' b b' :
  normalize_all a = Ok a' -> normalize_all b = Ok b' ->
  normalize_all (a ++ b) = Ok (a' ++ b').
Proof.
  revert a'. induction a as [|x r IH]; intros a' Ha Hb.
  - simpl in Ha. inversion Ha; subst. exact Hb.
  - cbn [normalize_all app] in *.
    destruct (normalize_published x) as [x'|e]; [|discriminate].
    destruct (normalize_all r) as [r'|e]; [|discriminate].
    inversion Ha; subst. rewrite (IH r' eq_refl Hb). reflexivity.
Qed.

(** X10.  What a search stored is what the news route then serves.  After
    a search on a store that accepts every call, with at least one news item
    fetched, the news route for the trimmed company, with a limit that
    covers all the stored items of that company, answers from the store
    without any upstream request, and every item of that search is in its
    answer, unchanged. *)
Theorem searched_news_served_from_store payload limit (w : World) :
  let c := PyStr.strip (SearchRequest.company payload) in
  PyStr.nonempty c = true ->
  (forall k call, store_fault w k call = false) ->
  exists news,
    fst (fetch_google_news_rss c (SearchRequest.locale payload) 8
           (fetched [summary_url c] w)) = Ok news
    /\ (news <> [] ->
        (Z.of_nat (List.length news
                   + List.length (List.filter (in_collection "news" (by_company c))
                                    (db_docs w))) <= limit)%Z ->
        exists items w2,
          get_news c limit (snd (run_search payload w)) = (Ok items, w2)
          /\ http_log w2 = http_log (snd (run_search payload w))
          /\ (forall n, In n news -> In n items)).
Proof.
  intros c Hc Hw.
  destruct (gather_total c payload w) as (s & n & p & u & G).
  destruct (gather_components c payload w _ _ _ _ G) as (_ & Hn & _ & _).
  exists n. split; [exact Hn|].
  intros Hne Hlim.
  rewrite (run_search_world payload w s n p _ Hc G). cbv zeta. rewrite !Hw.
  rewrite (stored_news_all_accepted _ _ _ Hw). fold c.
  match goal with |- context [get_news c limit ?x] => set (w1 := x) end.
  pose proof (news_items_shape _ _ _ _ _ Hn) as Hshape.
  set (older := map snd (List.filter (in_collection "news" (by_company c)) (db_docs w))).
  assert (Hdocs : map snd (List.filter (in_collection "news" (by_company c)) (db_docs w1))
                  = rev n ++ older).
  { change (db_docs w1)
      with (([("companyquery", query_doc c (SearchRequest.locale payload))]
             ++ rev (map (pair "news") n)
             ++ [("insight",
                  snapshot_of c s n (PDatetime (clock w (clock_reads w))))])
            ++ db_docs w).
    rewrite !filter_app.
    change (List.filter (in_collection "news" (by_company c))
              [("companyquery", query_doc c (SearchRequest.locale payload))])
      with (@nil (string * PyVal)).
    change (List.filter (in_collection "news" (by_company c))
              [("insight", snapshot_of c s n (PDatetime (clock w (clock_reads w))))])
      with (@nil (string * PyVal)).
    rewrite app_nil_r.
    rewrite filter_all.
    - simpl app. rewrite map_app, map_rev, map_map. simpl. rewrite map_id. reflexivity.
    - apply Forall_rev. apply Forall_map. simpl.
      eapply Forall_impl; [|exact Hshape].
      intros x [item ->]. unfold in_collection. simpl.
      rewrite String.eqb_refl. reflexivity. }
  assert (Hold : Forall (fun d => exists e, d = PDict e) older)
    by apply filtered_are_dicts.
  destruct (normalize_all_dicts _ Hold) as (rest & Hrest & _).
  exists (rev n ++ rest), (log_db (DbRead "news" (by_company c) limit) w1).
  split; [|split; [reflexivity|]].
  - apply (get_news_hit c limit w1 (rev n ++ older)).
    + unfold get_documents. change (store_fault w1) with (store_fault w).
      rewrite Hw, Hdocs. rewrite firstn_all2; [reflexivity|].
      rewrite length_app, length_rev. unfold older. rewrite length_map. lia.
    + intros Habs. apply app_eq_nil in Habs. destruct Habs as [Habs _].
      apply (f_equal (@rev PyVal)) in Habs. rewrite rev_involutive in Habs.
      apply Hne. exact Habs.
    + apply normalize_all_app; [|exact Hrest].
      apply (normalize_all_news c). apply Forall_rev. exact Hshape.
  - intros x Hx. apply in_or_app. left. apply in_rev in Hx. exact Hx.
Qed.

End SearchThenNews.

(** ** More on the fetch helpers *)

Lemma from_length {A} limit (l : list A) :
  (0 < limit)%Z -> (List.length (PySlice.from (- limit) l) <= Z.to_nat limit)%nat.
Proof.
  intros H. unfold PySlice.from.
  destruct (- limit <? 0)%Z eqn:E; [|apply Z.ltb_ge in E; lia].
  rewrite length_skipn. lia.
Qed.

Lemma lower_nonempty t : PyStr.nonempty (PyStr.lower t) = PyStr.nonempty t.
Proof. destruct t; reflexivity. Qed.

Section FetchersMore.

Context {L : Libs}.

(** X11.  The feed fetcher never raises and makes exactly one request.  For
    a limit that is not negative it returns at most that many items, and
    every item has the seven fields in the fixed order, the company it was
    asked for and an empty list of tags. *)
Theorem news_items_bounded_and_tagged company locale limit (w : World) :
  exists items,
    fetch_google_news_rss company locale limit w
    = (Ok items, fetched [rss_url company locale] w)
    /\ ((0 <= limit)%Z -> (List.length items <= Z.to_nat limit)%nat)
    /\ Forall (fun n =>
                 exists e,
                   n = PDict e
                   /\ map fst e
                      = ["company"; "title"; "url"; "source"; "published_at";
                         "summary"; "tags"]
                   /\ Py.lookup "company" e = Some (PStr company)
                   /\ Py.lookup "tags" e = Some (PList [])) items.
Proof.
  destruct (fetch_google_news_rss_total company locale limit w) as [items E].
  exists items. split; [exact E|].
  pose proof (fetch_google_news_rss_result company locale limit w) as Hres.
  rewrite E in Hres. simpl in Hres. inversion Hres as [Hi]. clear Hres.
  split.
  - intros Hl.
    destruct (http_reply w _ _) as [r|]; [|simpl; lia].
    destruct ((400 <=? status_code r) && (status_code r <? 600))%Z; [simpl; lia|].
    destruct (fromstring (text r)); [|simpl; lia].
    rewrite length_map. apply upto_length. exact Hl.
  - destruct (http_reply w _ _) as [r|]; [|constructor].
    destruct ((400 <=? status_code r) && (status_code r <? 600))%Z; [constructor|].
    destruct (fromstring (text r)); [|constructor].
    apply Forall_map. apply Forall_forall. intros item _.
    eexists. split; [reflexivity|]. repeat split.
Qed.

(** X12.  The summary fetcher never raises and makes exactly one request,
    to the summary URL of the percent-encoded company; store and clock are
    untouched.  On a 200 reply whose JSON is an object it returns the value
    under "extract" as it is, of whatever type, and the empty string when
    the key is missing. *)
Theorem summary_fetch_one_request company (w : World) :
  exists v,
    fetch_wikipedia_summary company w = (Ok v, fetched [summary_url company] w)
    /\ (forall r d,
          http_reply w (List.length (http_log w)) (summary_url company) = Some r ->
          status_code r = 200%Z ->
          json r = Some (PDict d) ->
          v = match Py.lookup "extract" d with
              | Some x => x
              | None => PStr ""
              end).
Proof.
  unfold fetch_wikipedia_summary. run_py.
  destruct (http_reply w _ _) as [r|];
    [|eexists; split; [reflexivity | intros; discriminate]].
  destruct (status_code r =? 200)%Z eqn:Es.
  - destruct (json r) as [j|] eqn:Ej; simpl.
    + destruct j; simpl;
        (eexists; split; [reflexivity|]; intros r0 d0 Hr _ Hj;
         inversion Hr; subst r0; rewrite Ej in Hj; try discriminate).
      inversion Hj; subst. reflexivity.
    + eexists. split; [reflexivity|]. intros r0 d0 Hr _ Hj.
      inversion Hr; subst r0. rewrite Ej in Hj. discriminate.
  - eexists. split; [reflexivity|]. intros r0 d0 Hr Hs _.
    inversion Hr; subst r0. apply Z.eqb_neq in Es. contradiction.
Qed.

(** X13.  Every bar the price fetcher returns is a dict of the six fields
    date, open, high, low, close, volume, with float prices and an integer
    volume; and for a positive limit there are at most that many bars. *)
Theorem price_bars_shaped_and_bounded ticker limit (w : World) :
  exists bars w',
    fetch_stooq_prices ticker limit w = (Ok bars, w')
    /\ Forall is_bar bars
    /\ ((0 < limit)%Z -> (List.length bars <= Z.to_nat limit)%nat).
Proof.
  destruct (fetch_stooq_prices_total ticker limit w) as (bars & urls & E).
  exists bars, (fetched urls w). split; [exact E|].
  destruct (fetch_stooq_prices_result ticker limit w) as [H | [r H]];
    rewrite E in H; simpl in H; inversion H; subst bars.
  - split; [constructor | simpl; lia].
  - split; [apply row_bars_shape|]. intros Hl.
    eapply Nat.le_trans; [apply row_bars_count|].
    unfold data_rows. apply from_length. exact Hl.
Qed.

(** X14.  A limit of zero is no limit: the slice [-0:] keeps everything, so
    with limit 0 the price fetcher returns the bars of all data rows, the
    same as with any limit that is at least their number. *)
Theorem price_limit_zero_is_no_limit ticker limit (w : World) r :
  http_reply w (List.length (http_log w)) (stooq_url ticker) = Some r ->
  (Z.of_nat (List.length (data_rows (text r) 0)) <= limit)%Z ->
  data_rows (text r) 0 = PySlice.from 1 (PyStr.splitlines (PyStr.strip (text r)))
  /\ fetch_stooq_prices (Some ticker) 0 w = fetch_stooq_prices (Some ticker) limit w.
Proof.
  intros Hr Hl.
  set (rows := PySlice.from 1 (PyStr.splitlines (PyStr.strip (text r)))).
  assert (H0 : data_rows (text r) 0 = rows).
  { unfold data_rows. fold rows. unfold PySlice.from at 1. simpl Z.opp.
    change (0 <? 0)%Z with false. cbv iota.
    replace (Z.min 0 (Z.of_nat (List.length rows))) with 0%Z by lia.
    reflexivity. }
  assert (Hn : data_rows (text r) limit = rows).
  { rewrite H0 in Hl. unfold data_rows. fold rows. unfold PySlice.from at 1.
    destruct (- limit <? 0)%Z eqn:E.
    - replace (Z.max (Z.of_nat (List.length rows) + - limit) 0) with 0%Z by lia.
      reflexivity.
    - apply Z.ltb_ge in E.
      replace (Z.min (- limit) (Z.of_nat (List.length rows))) with 0%Z by lia.
      reflexivity. }
  split; [exact H0|].
  unfold fetch_stooq_prices.
  destruct (PyStr.nonempty ticker); simpl; [|reflexivity].
  run_py. rewrite Hr. destruct (no_csv r); [reflexivity|].
  rewrite H0, Hn. reflexivity.
Qed.

(** X15.  The case of the ticker is irrelevant: two tickers with the same
    lowercase form lead to the same request and the same result. *)
Theorem price_ticker_case_insensitive t1 t2 limit (w : World) :
  PyStr.lower t1 = PyStr.lower t2 ->
  fetch_stooq_prices (Some t1) limit w = fetch_stooq_prices (Some t2) limit w.
Proof.
  intros H. unfold fetch_stooq_prices.
  rewrite <- (lower_nonempty t1), <- (lower_nonempty t2), H.
  unfold stooq_url. rewrite H. reflexivity.
Qed.

End FetchersMore.

(** ** The routes under failing or absent upstreams *)

Section Degraded.

Context {L : Libs} {D : DatetimeLib} {V : Pydantic}.


(** X17.  The news route only reads: it makes exactly one call to the store,
    a read of the news collection, leaves the stored documents and the clock
    as they are, and makes at most one upstream request, which is the feed
    request with the default locale. *)
Theorem get_news_only_reads company limit (w : World) :
  exists items w',
    get_news company limit w = (Ok items, w')
    /\ db_calls w' = db_calls w ++ [DbRead "news" (by_company company) limit]
    /\ db_docs w' = db_docs w
    /\ clock_reads w' = clock_reads w
    /\ (http_log w' = http_log w
        \/ http_log w' = http_log w ++ [rss_url company None]).
Proof.
  pose proof (get_documents_outcome "news" (by_company company) limit w) as Hw.
  destruct (get_documents "news" (by_company company) limit w)
    as [[docs|e] w1] eqn:G; simpl in Hw; subst w1.
  - destruct docs as [|d r].
    + rewrite (get_news_falls_back_run company limit w)
        by (left; rewrite G; reflexivity).
      destruct (fetch_google_news_rss_total company None limit
                  (log_db (DbRead "news" (by_company company) limit) w)) as [items E].
      exists items. eexists. split; [exact E|].
      simpl. repeat split. right. reflexivity.
    + pose proof (get_documents_dicts _ _ _ _ _ _ G) as Hd.
      destruct (normalize_all_dicts (d :: r) Hd) as (docs' & Hn & _).
      exists docs'. eexists. split.
      * apply (get_news_hit company limit w (d :: r)); [exact G | discriminate | exact Hn].
      * simpl. repeat split. left. reflexivity.
  - rewrite (get_news_falls_back_run company limit w)
      by (right; exists e; rewrite G; reflexivity).
    destruct (fetch_google_news_rss_total company None limit
                (log_db (DbRead "news" (by_company company) limit) w)) as [items E].
    exists items. eexists. split; [exact E|].
    simpl. repeat split. right. reflexivity.
Qed.

(** X18.  A search without a ticker (absent or empty) makes no price
    request, and the record it returns, when it returns one, has an empty
    price list. *)
Theorem search_without_ticker payload (w : World) :
  let c := PyStr.strip (SearchRequest.company payload) in
  PyStr.nonempty c = true ->
  SearchRequest.ticker payload = None \/ SearchRequest.ticker payload = Some "" ->
  http_log (snd (run_search payload w))
  = http_log w ++ [summary_url c; rss_url c (SearchRequest.locale payload)]
  /\ (forall resp w',
        run_search payload w = (Ok resp, w') ->
        InsightResponse.prices resp = PList []).
Proof.
  intros c Hc Ht.
  destruct (gather_total c payload w) as (s & n & p & u & G).
  destruct (gather_components c payload w _ _ _ _ G) as (_ & _ & Hp & Hu).
  assert (p = [] /\ stooq_requests (SearchRequest.ticker payload) = []) as [-> Hq].
  { destruct Ht as [Ht|Ht]; rewrite Ht in Hp |- *; simpl in Hp;
      inversion Hp; split; reflexivity. }
  split.
  - rewrite (run_search_world payload w s n [] _ Hc G). cbv zeta.
    rewrite Hu, Hq. destruct (store_fault w _ _); reflexivity.
  - intros resp w' Hrun.
    rewrite (run_search_run payload w Hc _ _ _ _ G) in Hrun.
    inversion Hrun as [[Hresp Hwfin]]. clear Hrun.
    apply make_inv in Hresp. destruct Hresp as (t & _ & -> & _). reflexivity.
Qed.

(** X19.  Upstream failures never fail a search.  When every upstream
    request fails, the search still answers 200: the summary is the default
    sentence, the first market trend counts zero articles and the price list
    is empty. *)
Theorem search_survives_upstream_outage payload (w : World) :
  let c := PyStr.strip (SearchRequest.company payload) in
  PyStr.nonempty c = true ->
  (forall n url, http_reply w n url = None) ->
  exists resp w',
    run_search payload w = (Ok resp, w')
    /\ http_status (fst (run_search payload w)) = 200%Z
    /\ InsightResponse.summary resp
       = PStr ("No summary available for " ++ c ++ ".")%string
    /\ InsightResponse.market_trends resp
       = PList [PStr "Media coverage: 0 recent articles discovered";
                PStr "Monitoring public sources for mentions and sentiment"]
    /\ InsightResponse.prices resp = PList [].
Proof.
  intros c Hc Hdown.
  destruct (gather_total c payload w) as (s & n & p & u & G).
  destruct (gather_components c payload w _ _ _ _ G) as (Hs & Hn & Hp & _).
  rewrite (fetch_wikipedia_summary_no_extract c w) in Hs
    by (rewrite Hdown; constructor).
  rewrite fetch_google_news_rss_result in Hn. simpl http_reply in Hn.
  rewrite Hdown in Hn.
  assert (Hp' : p = []).
  { unfold fetch_stooq_prices in Hp.
    destruct (SearchRequest.ticker payload) as [t|]; [|inversion Hp; reflexivity].
    destruct (PyStr.nonempty t); simpl in Hp; [|inversion Hp; reflexivity].
    run_py. rewrite Hdown in Hp. inversion Hp. reflexivity. }
  inversion Hs; inversion Hn; subst s n p.
  rewrite (run_search_ok payload w Hc _ _ _ _ G eq_refl).
  eexists. eexists. repeat split.
Qed.

End Degraded.

(** ** The further properties on concrete worlds *)

Lemma get_news_serves_stored_witness :
  exists items,
    @get_news Demo.libs Sample.datetime_lib "Acme" 10 (Sample.with_news Demo.never)
    = (Ok items,
       log_db (DbRead "news" (by_company "Acme") 10) (Sample.with_news Demo.never))
    /\ Forall2 (@published_as_text Sample.datetime_lib) [Sample.stored_item] items.
Proof.
  destruct (@get_news_serves_stored Demo.libs Sample.datetime_lib "Acme" 10
              (Sample.with_news Demo.never) [Sample.stored_item]
              (log_db (DbRead "news" (by_company "Acme") 10)
                 (Sample.with_news Demo.never))
              eq_refl ltac:(discriminate))
    as (items & Hrun & Hall & _).
  exists items. split; assumption.
Defined.

Lemma get_news_falls_back_witness :
  @get_news Demo.libs Sample.datetime_lib "Acme" 10 (Sample.with_news Demo.always)
  = @fetch_google_news_rss Demo.libs "Acme" None 10
      (log_db (DbRead "news" (by_company "Acme") 10) (Sample.with_news Demo.always)).
Proof.
  apply (@get_news_falls_back Demo.libs Sample.datetime_lib "Acme" 10
           (Sample.with_news Demo.always)).
  right. exists StoreError. reflexivity.
Defined.

Lemma search_requests_in_order_witness :
  http_log (snd (@run_search Demo.libs Demo.pydantic Demo.acme
                   (Demo.world (Some Demo.wiki_ok) Demo.never)))
  = [summary_url "Acme"; rss_url "Acme" None; stooq_url "ACME"]
  /\ clock_reads (snd (@run_search Demo.libs Demo.pydantic Demo.acme
                         (Demo.world (Some Demo.wiki_ok) Demo.never))) = 2%nat.
Proof.
  exact (@search_requests_in_order Demo.libs Demo.pydantic Demo.acme
           (Demo.world (Some Demo.wiki_ok) Demo.never) eq_refl).
Defined.

Lemma search_only_appends_witness :
  exists calls added,
    db_calls (snd (@run_search Demo.libs Demo.pydantic Demo.acme
                     (Sample.with_news Demo.never))) = calls
    /\ forallb is_write calls = true
    /\ db_docs (snd (@run_search Demo.libs Demo.pydantic Demo.acme
                       (Sample.with_news Demo.never)))
       = added ++ [("news", Sample.stored_item)].
Proof.
  destruct (@search_only_appends Demo.libs Demo.pydantic Demo.acme
              (Sample.with_news Demo.never) eq_refl)
    as (calls & added & Hcalls & Hw & _ & Hdocs).
  exists calls, added. repeat split; assumption.
Defined.

Lemma repeated_search_duplicates_witness :
  List.length
    (List.filter (in_collection "insight" (by_company "Acme"))
       (db_docs
          (snd (@run_search Demo.libs Demo.pydantic Demo.acme
                  (snd (@run_search Demo.libs Demo.pydantic Demo.acme
                          (Demo.world (Some Demo.wiki_ok) Demo.never)))))))
  = 2%nat.
Proof.
  exact (@repeated_search_duplicates Demo.libs Demo.pydantic Demo.acme
           (Demo.world (Some Demo.wiki_ok) Demo.never) eq_refl
           (fun _ _ => eq_refl)).
Defined.

Lemma summary_is_extract_or_default_witness :
  (exists resp w',
      @run_search Demo.libs Demo.pydantic Demo.acme
        (Demo.world (Some Demo.wiki_ok) Demo.never)
      = (Ok resp, w')
      /\ InsightResponse.summary resp = PStr "Acme makes anvils.")
  /\ fst (@run_search Demo.libs Demo.pydantic Demo.acme
            (Demo.world (Some Demo.wiki_number) Demo.never))
     = Raise ValidationError.
Proof.
  split.
  - destruct (@summary_is_extract_or_default Demo.libs Demo.pydantic Demo.acme
                (Demo.world (Some Demo.wiki_ok) Demo.never) eq_refl)
      as (v & _ & _ & _ & Hext).
    apply (Hext Demo.wiki_ok [("extract", PStr "Acme makes anvils.")]
             "Acme makes anvils." eq_refl eq_refl eq_refl eq_refl).
    discriminate.
  - destruct (@summary_is_extract_or_default Demo.libs Demo.pydantic Demo.acme
                (Demo.world (Some Demo.wiki_number) Demo.never) eq_refl)
      as (v & Hv & _ & Hbad & _).
    vm_compute in Hv. inversion Hv; subst v.
    apply Hbad. intros x. discriminate.
Defined.

Lemma market_trends_count_news_witness :
  exists resp w' (news : list PyVal),
    @run_search Demo.libs Demo.pydantic Demo.acme
      (Demo.world (Some Demo.wiki_500) Demo.never)
    = (Ok resp, w')
    /\ (List.length news <= 8)%nat
    /\ InsightResponse.market_trends resp
       = PList [PStr ("Media coverage: " ++ PyStr.of_nat (List.length news)
                      ++ " recent articles discovered")%string;
                PStr "Monitoring public sources for mentions and sentiment"].
Proof.
  destruct (@gather_total Demo.libs "Acme" Demo.acme
              (Demo.world (Some Demo.wiki_500) Demo.never))
    as (s & n & p & u & G).
  pose proof (@gather_summary Demo.libs "Acme" Demo.acme _ s n p _ G) as Hs.
  vm_compute in Hs. inversion Hs; subst s.
  pose proof (@run_search_ok Demo.libs Demo.pydantic Demo.acme
                (Demo.world (Some Demo.wiki_500) Demo.never) eq_refl
                _ _ _ _ G eq_refl) as Hrun.
  destruct (@market_trends_count_news Demo.libs Demo.pydantic Demo.acme
              (Demo.world (Some Demo.wiki_500) Demo.never) _ _ eq_refl Hrun)
    as (news & _ & Hlen & Hm).
  eexists. eexists. exists news. split; [exact Hrun|]. split; assumption.
Defined.

Lemma get_insights_only_reads_witness :
  fst (@get_insights Demo.pydantic "Acme"
         (Demo.world (Some Demo.wiki_ok) Demo.always)) = Ok []
  /\ db_docs (snd (@get_insights Demo.pydantic "Acme"
                     (Demo.world (Some Demo.wiki_ok) Demo.always))) = [].
Proof.
  destruct (@get_insights_only_reads Demo.pydantic "Acme"
              (Demo.world (Some Demo.wiki_ok) Demo.always))
    as (_ & Hdocs & _ & _ & Hdown).
  split; [exact (Hdown eq_refl) | exact Hdocs].
Defined.

Lemma searched_news_served_from_store_witness :
  exists (news items : list PyVal) w2,
    List.length news = 2%nat
    /\ @get_news Demo.libs Sample.datetime_lib "Acme" 10
         (snd (@run_search Demo.libs Demo.pydantic Demo.acme
                 (Demo.world (Some Demo.wiki_ok) Demo.never)))
       = (Ok items, w2)
    /\ (forall n, In n news -> In n items).
Proof.
  destruct (@searched_news_served_from_store Demo.libs Sample.datetime_lib
              Demo.pydantic Demo.acme 10
              (Demo.world (Some Demo.wiki_ok) Demo.never)
              eq_refl (fun _ _ => eq_refl))
    as (news & Hn & Hget).
  vm_compute in Hn. inversion Hn as [Hnews].
  rewrite <- Hnews in Hget.
  destruct (Hget ltac:(discriminate) ltac:(vm_compute; discriminate))
    as (items & w2 & Hg & _ & Hin).
  exists news, items, w2. rewrite <- Hnews.
  split; [reflexivity|]. split; [exact Hg | exact Hin].
Defined.

Lemma news_items_bounded_and_tagged_witness :
  exists items,
    fst (@fetch_google_news_rss Demo.libs "Acme" None 1
           (Demo.world (Some Demo.wiki_ok) Demo.never)) = Ok items
    /\ (List.length items <= 1)%nat.
Proof.
  destruct (@news_items_bounded_and_tagged Demo.libs "Acme" None 1
              (Demo.world (Some Demo.wiki_ok) Demo.never))
    as (items & Hrun & Hlen & _).
  exists items. rewrite Hrun. split; [reflexivity|].
  apply Hlen. lia.
Defined.

Lemma summary_fetch_one_request_witness :
  exists v,
    fetch_wikipedia_summary "Acme" (Demo.world (Some Demo.wiki_no_extract) Demo.never)
    = (Ok v,
       fetched [summary_url "Acme"] (Demo.world (Some Demo.wiki_no_extract) Demo.never))
    /\ v = PStr "".
Proof.
  destruct (summary_fetch_one_request "Acme"
              (Demo.world (Some Demo.wiki_no_extract) Demo.never))
    as (v & Hrun & Hv).
  exists v. split; [exact Hrun|].
  exact (Hv Demo.wiki_no_extract [("title", PStr "Acme")] eq_refl eq_refl eq_refl).
Defined.

Lemma price_bars_shaped_and_bounded_witness :
  exists bars w',
    @fetch_stooq_prices Demo.libs (Some "ACME") 3
      (Demo.world (Some Demo.wiki_ok) Demo.never) = (Ok bars, w')
    /\ Forall is_bar bars
    /\ (List.length bars <= 3)%nat.
Proof.
  destruct (@price_bars_shaped_and_bounded Demo.libs (Some "ACME") 3
              (Demo.world (Some Demo.wiki_ok) Demo.never))
    as (bars & w' & Hrun & Hshape & Hlen).
  exists bars, w'. split; [exact Hrun|]. split; [exact Hshape|].
  apply Hlen. lia.
Defined.

Lemma price_limit_zero_is_no_limit_witness :
  @fetch_stooq_prices Demo.libs (Some "ACME") 0
    (Demo.world (Some Demo.wiki_ok) Demo.never)
  = @fetch_stooq_prices Demo.libs (Some "ACME") 60
      (Demo.world (Some Demo.wiki_ok) Demo.never).
Proof.
  apply (@price_limit_zero_is_no_limit Demo.libs "ACME" 60
           (Demo.world (Some Demo.wiki_ok) Demo.never)
           (mkResponse 200 Demo.csv None) eq_refl).
  vm_compute. discriminate.
Defined.

Lemma price_ticker_case_insensitive_witness :
  @fetch_stooq_prices Demo.libs (Some "ACME") 60
    (Demo.world (Some Demo.wiki_ok) Demo.never)
  = @fetch_stooq_prices Demo.libs (Some "acme") 60
      (Demo.world (Some Demo.wiki_ok) Demo.never).
Proof.
  exact (@price_ticker_case_insensitive Demo.libs "ACME" "acme" 60
           (Demo.world (Some Demo.wiki_ok) Demo.never) eq_refl).
Defined.


Lemma search_without_ticker_witness :
  http_log (snd (@run_search Demo.libs Demo.pydantic Sample.no_ticker
                   (Demo.world (Some Demo.wiki_ok) Demo.never)))
  = [summary_url "Acme"; rss_url "Acme" None].
Proof.
  exact (proj1 (@search_without_ticker Demo.libs Demo.pydantic Sample.no_ticker
                  (Demo.world (Some Demo.wiki_ok) Demo.never) eq_refl
                  (or_introl eq_refl))).
Defined.

Lemma search_survives_upstream_outage_witness :
  exists resp w',
    @run_search Demo.libs Demo.pydantic Demo.acme Sample.offline = (Ok resp, w')
    /\ InsightResponse.summary resp = PStr "No summary available for Acme."
    /\ InsightResponse.prices resp = PList [].
Proof.
  destruct (@search_survives_upstream_outage Demo.libs Demo.pydantic Demo.acme
              Sample.offline eq_refl (fun _ _ => eq_refl))
    as (resp & w' & Hrun & _ & Hs & _ & Hp).
  exists resp, w'. repeat split; assumption.
Defined.
